(** * Nesta Signal Scout relay: a model of [server.js]

    The server relays one chat message to a hosted agent, polls the run,
    and, when the agent asks for the [display_signal_card] tool, appends the
    signal to a CSV log and answers with a card tree.  A second route serves
    the log.

    Values are JavaScript values as [JSON.parse] and [body-parser] deliver
    them.  Numbers are the safe integers (magnitude below 2^53), written as
    [Z] without wrap-around: the program only compares them, subtracts one
    and prints them.  Strings are
    sequences of code units written as Rocq strings.  Three builtins whose
    tables are the engine's own ([JSON.parse], [toUpperCase], the numeric
    reading of a string) are a parameter, the class [Engine].

    What the outside answers during a request (the agent, the clock, the
    disk) is an input, the record [environment]; the log file and the calls
    made are the state, the record [world].  Requests are taken one at a
    time.  Console output is left out, except for the string conversions
    that its template literals perform, which can throw. *)

From Stdlib Require Import ZArith List String Ascii Bool Lia.
From Stdlib Require Import DecimalString DecimalPos DecimalZ.
Import ListNotations.
Local Open Scope string_scope.
Local Open Scope Z_scope.
Set Warnings "-register-all".

(* ================================================================= *)
(** ** JavaScript values and completions *)

Inductive value : Type :=
| VUndefined
| VNull
| VBool (b : bool)
| VNum (n : Z)
| VStr (s : string)
| VArr (items : list value)
| VObj (props : list (string * value)).

(** Thrown values: every [throw] of the program and of the engine throws
    an [Error] object; the handler reads its [message]. *)
Inductive exn : Type :=
| Error (msg : string)
| TypeError (msg : string)
| SyntaxError (msg : string).

Definition message (e : exn) : string :=
  match e with Error m | TypeError m | SyntaxError m => m end.

(** Result of evaluating an expression: a value or a throw. *)
Inductive result (A : Type) : Type :=
| Ok (a : A)
| Throw (e : exn).
Arguments Ok {A} a.
Arguments Throw {A} e.

Definition rbind {A B} (m : result A) (k : A -> result B) : result B :=
  match m with
  | Ok a => k a
  | Throw e => Throw e
  end.

Declare Scope result_scope.
Delimit Scope result_scope with res.
Notation "x <- m ;; k" := (rbind m (fun x => k))
  (at level 61, m at next level, right associativity) : result_scope.

(** The engine's builtins. [StringToNumber] is [ToNumber] on a string,
    [None] standing for [NaN]. *)
Class Engine : Type := {
  JSON_parse : string -> result value;
  toUpperCase : string -> string;
  StringToNumber : string -> option Z
}.

(* ================================================================= *)
(** ** Operators *)

Definition ToBoolean (v : value) : bool :=
  match v with
  | VUndefined | VNull => false
  | VBool b => b
  | VNum n => negb (n =? 0)
  | VStr s => negb (s =? "")%string
  | VArr _ | VObj _ => true
  end.

(** [a || b], for a right operand without effects. *)
Definition or_else (a b : value) : value := if ToBoolean a then a else b.

Fixpoint own (props : list (string * value)) (k : string) : option value :=
  match props with
  | [] => None
  | (k', v) :: rest => if (k' =? k)%string then Some v else own rest k
  end.

Definition Number_toString (n : Z) : string :=
  NilZero.string_of_int (Z.to_int n).

(** An array index written canonically ("0", "7", "12", not "07"). *)
Definition array_index (k : string) : option nat :=
  match NilEmpty.uint_of_string k with
  | Some u =>
      let n := Z.of_int (Decimal.Pos u) in
      if (Number_toString n =? k)%string then Some (Z.to_nat n) else None
  | None => None
  end.

(** [v.k] and [v[k]], for a key that the builtin prototypes do not define
    (every name the program reads is one: messages, length, content, text,
    title, score, mission, archetype, hook, sourceURL, lenses). *)
Definition get (v : value) (k : string) : result value :=
  match v with
  | VUndefined =>
      Throw (TypeError ("Cannot read properties of undefined (reading '" ++ k ++ "')"))
  | VNull =>
      Throw (TypeError ("Cannot read properties of null (reading '" ++ k ++ "')"))
  | VBool _ | VNum _ => Ok VUndefined
  | VStr s =>
      if (k =? "length")%string then Ok (VNum (Z.of_nat (String.length s)))
      else match array_index k with
           | Some i =>
               match String.get i s with
               | Some c => Ok (VStr (String c EmptyString))
               | None => Ok VUndefined
               end
           | None => Ok VUndefined
           end
  | VArr items =>
      if (k =? "length")%string then Ok (VNum (Z.of_nat (List.length items)))
      else match array_index k with
           | Some i => Ok (nth i items VUndefined)
           | None => Ok VUndefined
           end
  | VObj props =>
      match own props k with
      | Some x => Ok x
      | None => Ok VUndefined
      end
  end.

(** [ToString], as a template literal applies it.  An array joins its
    elements with commas, [null] and [undefined] elements printing as the
    empty string.  A parsed object prints through [Object.prototype]
    unless it has an own [toString] entry, which is then not callable. *)
Fixpoint ToString (v : value) : result string :=
  match v with
  | VUndefined => Ok "undefined"
  | VNull => Ok "null"
  | VBool b => Ok (if b then "true" else "false")
  | VNum n => Ok (Number_toString n)
  | VStr s => Ok s
  | VArr items =>
      (fix join (l : list value) : result string :=
         match l with
         | [] => Ok ""
         | x :: rest =>
             (sx <- match x with
                    | VUndefined | VNull => Ok ""
                    | _ => ToString x
                    end ;;
              match rest with
              | [] => Ok sx
              | _ => (srest <- join rest ;; Ok (sx ++ "," ++ srest))
              end)%res
         end) items
  | VObj props =>
      match own props "toString" with
      | Some _ => Throw (TypeError "Cannot convert object to primitive value")
      | None => Ok "[object Object]"
      end
  end.

Section Coercions.
Context {E : Engine}.

(** [ToNumber]; [None] is [NaN]. *)
Definition ToNumber (v : value) : result (option Z) :=
  match v with
  | VUndefined => Ok None
  | VNull => Ok (Some 0)
  | VBool b => Ok (Some (if b then 1 else 0))
  | VNum n => Ok (Some n)
  | VStr s => Ok (StringToNumber s)
  | VArr _ | VObj _ => (s <- ToString v ;; Ok (StringToNumber s))%res
  end.

(** [v > n] for a numeric literal [n]: a comparison with [NaN] is false. *)
Definition gt (v : value) (n : Z) : result bool :=
  (x <- ToNumber v ;;
   Ok match x with
      | Some z => n <? z
      | None => false
      end)%res.

(** The property key of [v - n]. *)
Definition minus_key (v : value) (n : Z) : result string :=
  (x <- ToNumber v ;;
   Ok match x with
      | Some z => Number_toString (z - n)
      | None => "NaN"
      end)%res.

Definition dquote : string := String (ascii_of_nat 34) EmptyString.

(** [v.toUpperCase()]: only a string has the method. *)
Definition call_toUpperCase (v : value) : result value :=
  match v with
  | VStr s => Ok (VStr (toUpperCase s))
  | VUndefined | VNull => (_ <- get v "toUpperCase" ;; Ok VUndefined)%res
  | _ =>
      Throw (TypeError ("(data.archetype || " ++ dquote ++ "SIGNAL" ++ dquote
                        ++ ").toUpperCase is not a function"))
  end.

End Coercions.

(* ================================================================= *)
(** ** [Date.prototype.toISOString] *)

Definition digit (n : Z) : ascii := ascii_of_nat (48 + Z.to_nat (n mod 10)).

Definition digits2 (n : Z) : string :=
  String (digit (n / 10)) (String (digit n) EmptyString).
Definition digits3 (n : Z) : string := String (digit (n / 100)) (digits2 n).
Definition digits4 (n : Z) : string := String (digit (n / 1000)) (digits3 n).
Definition digits6 (n : Z) : string :=
  String (digit (n / 100000)) (String (digit (n / 10000)) (digits4 n)).

(** Year, month and day of a day number counted from 1970-01-01 in the
    proleptic Gregorian calendar. *)
Definition civil_from_days (days : Z) : Z * Z * Z :=
  let z := days + 719468 in
  let era := z / 146097 in
  let doe := z - era * 146097 in
  let yoe := (doe - doe / 1460 + doe / 36524 - doe / 146096) / 365 in
  let doy := doe - (365 * yoe + yoe / 4 - yoe / 100) in
  let mp := (5 * doy + 2) / 153 in
  let d := doy - (153 * mp + 2) / 5 + 1 in
  let m := if mp <? 10 then mp + 3 else mp - 9 in
  let y := yoe + era * 400 + (if m <=? 2 then 1 else 0) in
  (y, m, d).

Definition year_string (y : Z) : string :=
  if (0 <=? y) && (y <=? 9999) then digits4 y
  else (if y <? 0 then "-" else "+") ++ digits6 (Z.abs y).

(** [new Date(t).toISOString()], [t] in milliseconds since the epoch. *)
Definition toISOString (t : Z) : string :=
  let ms := t mod 86400000 in
  let '(y, m, d) := civil_from_days (t / 86400000) in
  year_string y ++ "-" ++ digits2 m ++ "-" ++ digits2 d ++ "T"
  ++ digits2 (ms / 3600000) ++ ":" ++ digits2 (ms / 60000 mod 60) ++ ":"
  ++ digits2 (ms / 1000 mod 60) ++ "." ++ digits3 (ms mod 1000) ++ "Z".

Definition is_digit (c : ascii) : bool :=
  let n := nat_of_ascii c in (48 <=? n)%nat && (n <=? 57)%nat.

(** A string consumed by a pattern: [None] stands for one decimal digit,
    [Some c] for the character [c]. *)
Fixpoint matches (pattern : list (option ascii)) (s : string) : bool :=
  match pattern, s with
  | [], EmptyString => true
  | None :: p, String c s' => is_digit c && matches p s'
  | Some a :: p, String c s' => Ascii.eqb a c && matches p s'
  | _, _ => false
  end.

Definition date_time_pattern : list (option ascii) :=
  [Some "-"%char; None; None; Some "-"%char; None; None; Some "T"%char;
   None; None; Some ":"%char; None; None; Some ":"%char; None; None;
   Some "."%char; None; None; None; Some "Z"%char].

(** The ECMAScript date-time format [YYYY-MM-DDTHH:mm:ss.sssZ], a profile
    of ISO 8601, with the expanded year [+YYYYYY] or [-YYYYYY]. *)
Definition iso8601 (s : string) : bool :=
  matches ([None; None; None; None] ++ date_time_pattern) s
  || matches ([Some "+"%char; None; None; None; None; None; None]
              ++ date_time_pattern) s
  || matches ([Some "-"%char; None; None; None; None; None; None]
              ++ date_time_pattern) s.

(* ================================================================= *)
(** ** The process: log file, calls made, HTTP responses *)

(** A line of [nesta_signals_log.csv]: its cells before CSV quoting. *)
Inductive line : Type :=
| HeaderLine (titles : list string)
| RecordLine (cells : list string).

Inductive response : Type :=
| Json (code : Z) (body : value)      (* res.status(code).json(body) *)
| Send (code : Z) (text : string)     (* res.status(code).send(text) *)
| Download (content : list line).     (* res.download(CSV_FILE) *)

(** Calls on the agent API and on the timer. *)
Inductive call : Type :=
| createAndRun (assistant_id : string) (content : value)
| runs_retrieve (thread_id run_id : string)
| submitToolOutputs (thread_id run_id : string) (outputs : list (string * string))
| messages_list (thread_id : string)
| setTimeout (ms : Z).

(** [csv_file] is [None] while [CSV_FILE] does not exist. *)
Record world : Type := {
  csv_file : option (list line);
  calls : list call
}.

(** How a statement list ends: it runs through, it answers the request
    and returns, it throws, or it stays suspended on a promise that the
    other side never settles. *)
Inductive completion (A : Type) : Type :=
| Normal (a : A)
| Returned (r : response)
| Thrown (e : exn)
| Pending.
Arguments Normal {A} a.
Arguments Returned {A} r.
Arguments Thrown {A} e.
Arguments Pending {A}.

Definition M (A : Type) : Type := world -> completion A * world.

Definition ret {A} (a : A) : M A := fun w => (Normal a, w).

Definition bind {A B} (m : M A) (k : A -> M B) : M B :=
  fun w =>
    match m w with
    | (Normal a, w') => k a w'
    | (Returned r, w') => (Returned r, w')
    | (Thrown e, w') => (Thrown e, w')
    | (Pending, w') => (Pending, w')
    end.

Declare Scope handler_scope.
Delimit Scope handler_scope with M.
Notation "x <- m ;; k" := (bind m (fun x => k))
  (at level 61, m at next level, right associativity) : handler_scope.

Definition lift {A} (r : result A) : M A :=
  fun w =>
    match r with
    | Ok a => (Normal a, w)
    | Throw e => (Thrown e, w)
    end.

Definition throw {A} (e : exn) : M A := fun w => (Thrown e, w).
Definition respond {A} (r : response) : M A := fun w => (Returned r, w).
Definition suspended {A} : M A := fun w => (Pending, w).

Definition perform (c : call) : M unit :=
  fun w => (Normal tt, {| csv_file := csv_file w; calls := (calls w ++ [c])%list |}).

(* ================================================================= *)
(** ** The CSV logger *)

Definition header : list (string * string) :=
  [("timestamp", "TIMESTAMP"); ("title", "TITLE"); ("score", "SCORE");
   ("mission", "MISSION"); ("archetype", "ARCHETYPE"); ("hook", "HOOK");
   ("sourceURL", "SOURCE")].

(** The [record] object that [logSignalToCsv] builds, [now] being the
    clock reading of [new Date()]. *)
Definition log_record (now : Z) (data : value) : result value :=
  (title <- get data "title" ;;
   score <- get data "score" ;;
   mission <- get data "mission" ;;
   archetype <- get data "archetype" ;;
   hook <- get data "hook" ;;
   sourceURL <- get data "sourceURL" ;;
   Ok (VObj [("timestamp", VStr (toISOString now));
             ("title", or_else title (VStr "Unknown"));
             ("score", or_else score (VNum 0));
             ("mission", or_else mission (VStr "Adj"));
             ("archetype", or_else archetype (VStr "Signal"));
             ("hook", or_else hook (VStr ""));
             ("sourceURL", or_else sourceURL (VStr ""))]))%res.

(** The writer's text of a cell: empty for [undefined], [null] and the
    empty string, [String(value)] otherwise. *)
Definition stringify_field (v : value) : result string :=
  match v with
  | VUndefined | VNull => Ok ""
  | _ => ToString v
  end.

Fixpoint stringify_fields (vs : list value) : result (list string) :=
  match vs with
  | [] => Ok []
  | v :: rest =>
      (c <- stringify_field v ;;
       cs <- stringify_fields rest ;;
       Ok (c :: cs))%res
  end.

(** The cells of a record, picked by the header's ids in its order. *)
Definition record_cells (record : value) : result (list string) :=
  (vs <- (fix pick (ids : list (string * string)) : result (list value) :=
            match ids with
            | [] => Ok []
            | (id, _) :: rest =>
                (v <- get record id ;; vs <- pick rest ;; Ok (v :: vs))
            end) header ;;
   stringify_fields vs)%res.

(** [csvWriter.writeRecords([record])] of a writer created with the flag
    [append]: the header goes first when the writer does not append.
    [disk_error] is the rejection of the write, if the disk refuses it. *)
Definition writeRecords (append : bool) (disk_error : option exn)
    (record : value) : M unit :=
  (cells <- lift (record_cells record) ;;
   match disk_error with
   | Some e => throw e
   | None =>
       fun w =>
         let written :=
           if append
           then (match csv_file w with
                 | Some content => content
                 | None => []
                 end ++ [RecordLine cells])%list
           else [HeaderLine (map snd header); RecordLine cells] in
         (Normal tt, {| csv_file := Some written; calls := calls w |})
   end)%M.

Definition existsSync : M bool :=
  fun w => (Normal (match csv_file w with Some _ => true | None => false end), w).

Definition logSignalToCsv (now : Z) (disk_error : option exn)
    (data : value) : M unit :=
  (append <- existsSync ;;
   record <- lift (log_record now data) ;;
   _ <- writeRecords append disk_error record ;;
   (* console.log(`... ${record.title}`) *)
   _ <- lift (title <- get record "title" ;; ToString title)%res ;;
   ret tt)%M.

(* ================================================================= *)
(** ** The widget builder *)

Section Widget.
Context {E : Engine}.

(** [const score = data.score || 0]. *)
Definition score_of (data : value) : result value :=
  (s <- get data "score" ;; Ok (or_else s (VNum 0)))%res.

(** [score > 80 ? "success" : (score > 60 ? "warning" : "secondary")]. *)
Definition scoreColor (score : value) : result string :=
  (high <- gt score 80 ;;
   if high then Ok "success"
   else (medium <- gt score 60 ;;
         Ok (if medium then "warning" else "secondary")))%res.

Definition buildWidgetPayload (data : value) : result value :=
  (score <- score_of data ;;
   color <- scoreColor score ;;
   a <- get data "archetype" ;;
   archetype <- call_toUpperCase (or_else a (VStr "SIGNAL")) ;;
   l <- get data "lenses" ;;
   let lenses := or_else l (VStr "Tech, Social") in
   scoreText <- ToString score ;;
   title <- get data "title" ;;
   hook <- get data "hook" ;;
   mission <- get data "mission" ;;
   titleText <- ToString title ;;
   hookText <- ToString hook ;;
   sourceURL <- get data "sourceURL" ;;
   Ok (VObj
     [("type", VStr "Card");
      ("size", VStr "lg");
      ("children", VArr
        [VObj
           [("type", VStr "Col"); ("gap", VNum 2);
            ("children", VArr
              [VObj
                 [("type", VStr "Row"); ("gap", VNum 2); ("align", VStr "center");
                  ("children", VArr
                    [VObj [("type", VStr "Icon"); ("name", VStr "sparkle");
                           ("color", VStr "primary")];
                     VObj [("type", VStr "Title");
                           ("value", VStr "Nesta Signal Scout");
                           ("size", VStr "sm")];
                     VObj [("type", VStr "Spacer")];
                     VObj [("type", VStr "Badge"); ("label", VStr "Pro");
                           ("color", VStr "discovery")]])];
               VObj [("type", VStr "Text");
                     ("value", VStr "Identify, rank, and stress-test innovation signals.");
                     ("size", VStr "sm"); ("color", VStr "secondary")]])];
         VObj [("type", VStr "Divider")];
         VObj
           [("type", VStr "Col"); ("gap", VNum 2);
            ("children", VArr
              [VObj [("type", VStr "Divider"); ("flush", VBool true)];
               VObj
                 [("type", VStr "Row"); ("align", VStr "center");
                  ("children", VArr
                    [VObj [("type", VStr "Caption"); ("value", archetype);
                           ("size", VStr "sm"); ("color", VStr "tertiary")];
                     VObj [("type", VStr "Spacer")];
                     VObj [("type", VStr "Badge");
                           ("label", VStr ("Score: " ++ scoreText ++ "/100"));
                           ("color", VStr color)]])];
               VObj [("type", VStr "Title"); ("value", title); ("size", VStr "md")];
               VObj [("type", VStr "Text"); ("value", hook); ("size", VStr "md")];
               VObj
                 [("type", VStr "Row"); ("gap", VNum 1);
                  ("children", VArr
                    [VObj [("type", VStr "Icon"); ("name", VStr "tag");
                           ("size", VStr "xs"); ("color", VStr "tertiary")];
                     VObj [("type", VStr "Caption"); ("value", lenses);
                           ("size", VStr "sm"); ("color", VStr "secondary")]])];
               VObj
                 [("type", VStr "Row"); ("gap", VNum 2); ("align", VStr "center");
                  ("children", VArr
                    [VObj [("type", VStr "Badge"); ("label", mission);
                           ("color", VStr "info")];
                     VObj [("type", VStr "Spacer")];
                     VObj
                       [("type", VStr "Button");
                        ("label", VStr "Use in chat");
                        ("iconStart", VStr "write");
                        ("size", VStr "sm");
                        ("onClickAction", VObj
                          [("type", VStr "message.insert");
                           ("payload", VObj
                             [("text", VStr (titleText ++ ": " ++ hookText))])])];
                     VObj
                       [("type", VStr "Button");
                        ("label", VStr "Source");
                        ("variant", VStr "outline");
                        ("size", VStr "sm");
                        ("iconStart", VStr "external-link");
                        ("onClickAction", VObj
                          [("type", VStr "open.url");
                           ("payload", VObj [("url", sourceURL)])])]])]])]])]))%res.

End Widget.

(** A node of a tree, reached by reading the keys of [path] in turn. *)
Fixpoint at_path (v : value) (path : list string) : result value :=
  match path with
  | [] => Ok v
  | k :: rest => (x <- get v k ;; at_path x rest)%res
  end.

(** Where the card keeps what it shows of a signal. *)
Definition signal_row : list string := ["children"; "2"; "children"; "1"; "children"].
Definition archetype_caption : list string := (signal_row ++ ["0"; "value"])%list.
Definition score_label : list string := (signal_row ++ ["2"; "label"])%list.
Definition score_color : list string := (signal_row ++ ["2"; "color"])%list.
Definition title_value : list string := ["children"; "2"; "children"; "2"; "value"].
Definition hook_value : list string := ["children"; "2"; "children"; "3"; "value"].
Definition lenses_caption : list string :=
  ["children"; "2"; "children"; "4"; "children"; "1"; "value"].
Definition action_row : list string := ["children"; "2"; "children"; "5"; "children"].
Definition mission_label : list string := (action_row ++ ["0"; "label"])%list.
Definition insert_text : list string :=
  (action_row ++ ["2"; "onClickAction"; "payload"; "text"])%list.
Definition source_url : list string :=
  (action_row ++ ["3"; "onClickAction"; "payload"; "url"])%list.

(* ================================================================= *)
(** ** The agent, as the handler sees it *)

Record toolCall : Type := {
  function_name : string;        (* tc.function.name *)
  function_arguments : string    (* tc.function.arguments *)
}.

(** What [runs.retrieve] resolves to; [tool_calls] is
    [required_action.submit_tool_outputs.tool_calls]. *)
Record runStatus : Type := {
  status : string;
  tool_calls : list toolCall
}.

Record run : Type := { thread_id : string; id : string }.

(** A content part of a message: a text part with its [text.value], or a
    part of another kind. *)
Inductive part : Type :=
| TextPart (text_value : string)
| OtherPart.

(** What the outside answers during one request, in the order asked:
    the clock, the disk, and the promises of the agent API ([Throw] is a
    rejection; [retrieved] lists the answers to the successive
    [runs.retrieve] calls, and a call beyond the list is never answered). *)
Record environment : Type := {
  now : Z;
  disk_error : option exn;
  created : result run;
  retrieved : list (result runStatus);
  listed : result (list (list part))
}.

Definition ASSISTANT_ID : string := "asst_6AnFZkW7f6Jhns774D9GNWXr".

(* ================================================================= *)
(** ** Route 1: [POST /api/chat] *)

Section Chat.
Context {E : Engine}.

(** Step 1 of the handler: the message taken from the request body. *)
Definition userMessage_of (body : value) : result value :=
  (messages <- get body "messages" ;;
   nonempty <- (if ToBoolean messages
                then (len <- get messages "length" ;; gt len 0)
                else Ok false) ;;
   if nonempty : bool then
     (len <- get messages "length" ;;
      k <- minus_key len 1 ;;
      last <- get messages k ;;
      get last "content")
   else
     (text <- get body "text" ;;
      if ToBoolean text then Ok text else Ok (VStr "Find top signals")))%res.

Definition is_display (tc : toolCall) : bool :=
  (function_name tc =? "display_signal_card")%string.

Definition terminal_failure (s : string) : bool :=
  ((s =? "failed") || (s =? "cancelled") || (s =? "expired"))%string.

(** The block under [if (displayAction)]. *)
Definition show_card (env : environment) (displayAction : toolCall) : M unit :=
  (signalData <- lift (JSON_parse (function_arguments displayAction)) ;;
   (* A. Save to CSV *)
   _ <- logSignalToCsv (now env) (disk_error env) signalData ;;
   (* B. Send Visual Payload to Widget *)
   payload <- lift (buildWidgetPayload signalData) ;;
   respond (Json 200 payload))%M.

(** The body of the [while] loop up to the wait, for the status at hand. *)
Definition inspect (env : environment) (runStatus : runStatus) : M unit :=
  (_ <- (if terminal_failure (status runStatus)
         then throw (Error ("Run failed with status: " ++ status runStatus))
         else ret tt) ;;
   if (status runStatus =? "requires_action")%string then
     match find is_display (tool_calls runStatus) with
     | Some displayAction => show_card env displayAction
     | None => ret tt
     end
   else ret tt)%M.

(** The [while] loop: [answers] are the answers still to come from
    [runs.retrieve], [runStatus] the one at hand. *)
Fixpoint poll (env : environment) (r : run) (answers : list (result runStatus))
    (runStatus : runStatus) {struct answers} : M unit :=
  if (status runStatus =? "completed")%string then ret tt
  else
    (_ <- inspect env runStatus ;;
     _ <- perform (setTimeout 1000) ;;
     _ <- perform (runs_retrieve (thread_id r) (id r)) ;;
     match answers with
     | [] => suspended
     | Throw e :: _ => throw e
     | Ok next :: rest => poll env r rest next
     end)%M.

(** [runStatus = await openai.beta.threads.runs.retrieve(...)] before the
    loop, and the loop. *)
Definition retrieve_and_poll (env : environment) (r : run)
    (answers : list (result runStatus)) : M unit :=
  (_ <- perform (runs_retrieve (thread_id r) (id r)) ;;
   match answers with
   | [] => suspended
   | Throw e :: _ => throw e
   | Ok runStatus :: rest => poll env r rest runStatus
   end)%M.

(** [messages.data[0].content[0].text.value]. *)
Definition first_text (data : list (list part)) : result string :=
  match data with
  | [] => Throw (TypeError "Cannot read properties of undefined (reading 'content')")
  | [] :: _ => Throw (TypeError "Cannot read properties of undefined (reading 'text')")
  | (OtherPart :: _) :: _ =>
      Throw (TypeError "Cannot read properties of undefined (reading 'value')")
  | (TextPart v :: _) :: _ => Ok v
  end.

(** Step 4 of the handler: the text reply. *)
Definition text_completion (env : environment) (r : run) : M Empty_set :=
  (_ <- perform (messages_list (thread_id r)) ;;
   messages <- lift (listed env) ;;
   lastMsg <- lift (first_text messages) ;;
   respond (Json 200 (VObj [("role", VStr "assistant"); ("content", VStr lastMsg)])))%M.

(** The [try] block. *)
Definition chat_try (env : environment) (body : value) : M Empty_set :=
  (userMessage <- lift (userMessage_of body) ;;
   (* console.log(`User asked: ${userMessage}`) *)
   _ <- lift (ToString userMessage) ;;
   _ <- perform (createAndRun ASSISTANT_ID userMessage) ;;
   r <- lift (created env) ;;
   _ <- retrieve_and_poll env r (retrieved env) ;;
   text_completion env r)%M.

(** The handler with its [catch]: the response sent, if any, and the
    process afterwards. *)
Definition chat (env : environment) (body : value) (w : world)
    : option response * world :=
  match chat_try env body w with
  | (Normal impossible, _) => match impossible with end
  | (Returned r, w') => (Some r, w')
  | (Thrown error, w') => (Some (Json 500 (VObj [("error", VStr (message error))])), w')
  | (Pending, w') => (None, w')
  end.

End Chat.

(* ================================================================= *)
(** ** Route 2: [GET /api/download_csv] *)

Definition download_csv (w : world) : response :=
  match csv_file w with
  | Some content => Download content
  | None => Send 404 "No signals have been logged yet."
  end.

(* ================================================================= *)
(** ** Start of the process *)

(** [process.env.NAME]: a string, or [undefined] when the variable is not
    set. *)
Definition getenv (process_env : list (string * string)) (name : string) : value :=
  match find (fun entry => (fst entry =? name)%string) process_env with
  | Some entry => VStr (snd entry)
  | None => VUndefined
  end.

Definition PORT (process_env : list (string * string)) : value :=
  or_else (getenv process_env "PORT") (VNum 3000).

Definition OPENAI_API_KEY (process_env : list (string * string)) : value :=
  getenv process_env "OPENAI_API_KEY".

(** How the script ends its start: [process.exit(code)], or
    [app.listen(port)]. *)
Inductive started : Type :=
| Exited (code : Z)
| Listening (port : value).

Definition start (process_env : list (string * string)) : started :=
  if negb (ToBoolean (OPENAI_API_KEY process_env)) then Exited 1
  else Listening (PORT process_env).

(* ================================================================= *)
(** ** An engine for ASCII text and integer literals

    It runs the model on examples.  It is the engine on its ASCII and
    integer part only: [toUpperCase] on the letters a to z, the numeric
    reading of a signed decimal integer between white space (any other
    string is not a number here), and [JSON.parse] of JSON text whose
    numbers are integer literals and whose strings are ASCII (any other
    text is refused here). *)
Module Ascii_engine.

Definition code (c : ascii) : nat := nat_of_ascii c.

Definition upper (c : ascii) : ascii :=
  if ((97 <=? code c) && (code c <=? 122))%nat then ascii_of_nat (code c - 32) else c.

Fixpoint upper_case (s : string) : string :=
  match s with
  | EmptyString => EmptyString
  | String c rest => String (upper c) (upper_case rest)
  end.

Definition is_space (c : ascii) : bool :=
  ((code c =? 32) || ((9 <=? code c) && (code c <=? 13)))%nat.

Fixpoint skip_space (s : string) : string :=
  match s with
  | String c rest => if is_space c then skip_space rest else s
  | EmptyString => s
  end.

(** White space of the JSON grammar: space, tab, line feed, return. *)
Definition is_json_space (c : ascii) : bool :=
  ((code c =? 32) || (code c =? 9) || (code c =? 10) || (code c =? 13))%nat.

Fixpoint skip_json_space (s : string) : string :=
  match s with
  | String c rest => if is_json_space c then skip_json_space rest else s
  | EmptyString => s
  end.

(** The digits at the head of [s], as a number, and what follows them. *)
Fixpoint digits (acc : Z) (s : string) : Z * string :=
  match s with
  | String c rest =>
      if is_digit c then digits (10 * acc + Z.of_nat (code c - 48)) rest
      else (acc, s)
  | EmptyString => (acc, s)
  end.

Definition starts_with_digit (s : string) : bool :=
  match s with String c _ => is_digit c | EmptyString => false end.

Definition string_to_number (s : string) : option Z :=
  match skip_space s with
  | EmptyString => Some 0
  | String c rest as t =>
      let '(sign, body) :=
        if Ascii.eqb c "-" then (-1, rest)
        else if Ascii.eqb c "+" then (1, rest) else (1, t) in
      if starts_with_digit body then
        let '(n, after) := digits 0 body in
        match skip_space after with
        | EmptyString => Some (sign * n)
        | _ => None
        end
      else None
  end.

Definition quote : ascii := ascii_of_nat 34.

(** A JSON string after its opening quote: its text and what follows
    the closing quote. *)
Fixpoint json_string (s : string) : option (string * string) :=
  match s with
  | EmptyString => None
  | String c rest =>
      if Ascii.eqb c quote then Some (EmptyString, rest)
      else if Ascii.eqb c "\" then
        match rest with
        | String e rest' =>
            let unescaped :=
              if Ascii.eqb e quote then Some quote
              else if Ascii.eqb e "\" then Some "\"%char
              else if Ascii.eqb e "/" then Some "/"%char
              else if Ascii.eqb e "b" then Some (ascii_of_nat 8)
              else if Ascii.eqb e "f" then Some (ascii_of_nat 12)
              else if Ascii.eqb e "n" then Some (ascii_of_nat 10)
              else if Ascii.eqb e "r" then Some (ascii_of_nat 13)
              else if Ascii.eqb e "t" then Some (ascii_of_nat 9)
              else None in
            match unescaped, json_string rest' with
            | Some u, Some (text, after) => Some (String u text, after)
            | _, _ => None
            end
        | EmptyString => None
        end
      else if (code c <? 32)%nat || (127 <? code c)%nat then None
      else match json_string rest with
           | Some (text, after) => Some (String c text, after)
           | None => None
           end
  end.

(** A JSON number that is an integer literal. *)
Definition json_number (s : string) : option (Z * string) :=
  let '(sign, body) :=
    match s with
    | String c rest => if Ascii.eqb c "-" then (-1, rest) else (1, s)
    | EmptyString => (1, s)
    end in
  match body with
  | String c rest =>
      if negb (is_digit c) then None
      else
        let '(n, after) := if Ascii.eqb c "0" then (0, rest) else digits 0 body in
        match after with
        | String d _ =>
            if Ascii.eqb d "." || Ascii.eqb d "e" || Ascii.eqb d "E" then None
            else Some (sign * n, after)
        | EmptyString => Some (sign * n, after)
        end
  | EmptyString => None
  end.

(** A later member of the same name replaces the value of the earlier. *)
Fixpoint define (props : list (string * value)) (k : string) (v : value)
    : list (string * value) :=
  match props with
  | [] => [(k, v)]
  | (k', v') :: rest =>
      if (k' =? k)%string then (k', v) :: rest else (k', v') :: define rest k v
  end.

Definition literal (word : string) (v : value) (s : string) : option (value * string) :=
  if prefix word s
  then Some (v, substring (String.length word) (String.length s - String.length word) s)
  else None.

Fixpoint json_value (fuel : nat) (s : string) : option (value * string) :=
  match fuel with
  | O => None
  | S fuel' =>
      match skip_json_space s with
      | EmptyString => None
      | String c rest as t =>
          if Ascii.eqb c "{" then
            match skip_json_space rest with
            | String d after =>
                if Ascii.eqb d "}" then Some (VObj [], after)
                else json_members fuel' [] rest
            | EmptyString => None
            end
          else if Ascii.eqb c "[" then
            match skip_json_space rest with
            | String d after =>
                if Ascii.eqb d "]" then Some (VArr [], after)
                else json_elements fuel' [] rest
            | EmptyString => None
            end
          else if Ascii.eqb c quote then
            match json_string rest with
            | Some (text, after) => Some (VStr text, after)
            | None => None
            end
          else if Ascii.eqb c "t" then literal "true" (VBool true) t
          else if Ascii.eqb c "f" then literal "false" (VBool false) t
          else if Ascii.eqb c "n" then literal "null" VNull t
          else match json_number t with
               | Some (n, after) => Some (VNum n, after)
               | None => None
               end
      end
  end
with json_elements (fuel : nat) (acc : list value) (s : string)
    : option (value * string) :=
  match fuel with
  | O => None
  | S fuel' =>
      match json_value fuel' s with
      | Some (v, after) =>
          match skip_json_space after with
          | String d after' =>
              if Ascii.eqb d "," then json_elements fuel' (acc ++ [v])%list after'
              else if Ascii.eqb d "]" then Some (VArr (acc ++ [v])%list, after')
              else None
          | EmptyString => None
          end
      | None => None
      end
  end
with json_members (fuel : nat) (acc : list (string * value)) (s : string)
    : option (value * string) :=
  match fuel with
  | O => None
  | S fuel' =>
      match skip_json_space s with
      | String q rest =>
          if negb (Ascii.eqb q quote) then None
          else
            match json_string rest with
            | Some (k, after) =>
                match skip_json_space after with
                | String colon after' =>
                    if negb (Ascii.eqb colon ":") then None
                    else
                      match json_value fuel' after' with
                      | Some (v, after'') =>
                          match skip_json_space after'' with
                          | String d after3 =>
                              if Ascii.eqb d ","
                              then json_members fuel' (define acc k v) after3
                              else if Ascii.eqb d "}"
                              then Some (VObj (define acc k v), after3)
                              else None
                          | EmptyString => None
                          end
                      | None => None
                      end
                | EmptyString => None
                end
            | None => None
            end
      | EmptyString => None
      end
  end.

Definition json_parse (s : string) : result value :=
  match json_value (2 * String.length s + 2) s with
  | Some (v, after) =>
      match skip_json_space after with
      | EmptyString => Ok v
      | _ => Throw (SyntaxError "Unexpected non-whitespace character after JSON")
      end
  | None => Throw (SyntaxError "Unexpected token in JSON")
  end.

#[export] Instance engine : Engine := {
  JSON_parse := json_parse;
  toUpperCase := upper_case;
  StringToNumber := string_to_number
}.

End Ascii_engine.

(* ================================================================= *)
(** ** Vocabulary of the properties *)

(** The field [k] of a record, [undefined] when absent. *)
Definition field (data : value) (k : string) : value :=
  match get data k with
  | Ok v => v
  | Throw _ => VUndefined
  end.

Definition absent_or_string (v : value) : bool :=
  match v with
  | VUndefined | VStr _ => true
  | _ => false
  end.

Definition absent_or_number (v : value) : bool :=
  match v with
  | VUndefined | VNum _ => true
  | _ => false
  end.

(** A SignalRecord of the data model: an object whose text fields are
    strings and whose score is a number, each of them possibly absent. *)
Definition SignalRecord (data : value) : bool :=
  match data with
  | VObj _ =>
      forallb (fun k => absent_or_string (field data k))
        ["title"; "mission"; "archetype"; "hook"; "sourceURL"; "lenses"]
      && absent_or_number (field data "score")
  | _ => false
  end.

Definition present (v : value) : Prop := v <> VUndefined /\ v <> VNull.

(** The log after one more record: the header first if the file is new. *)
Definition with_record (before : option (list line)) (cells : list string)
    : list line :=
  (match before with
   | Some content => content
   | None => [HeaderLine ["TIMESTAMP"; "TITLE"; "SCORE"; "MISSION";
                          "ARCHETYPE"; "HOOK"; "SOURCE"]]
   end ++ [RecordLine cells])%list.

(** The severity tiers of the data model and the badge colour that
    renders each. *)
Inductive tier : Type := High | Medium | Low.

Definition emphasis (t : tier) : string :=
  match t with
  | High => "success"
  | Medium => "warning"
  | Low => "secondary"
  end.

(** The score of the data model: an integer from 0 to 100. *)
Definition score_in_range (v : value) : Prop :=
  exists n, v = VNum n /\ 0 <= n <= 100.

(** A status on which the loop goes round again: not completed, not a
    failure, and no request for the card. *)
Definition keeps_polling (st : runStatus) : bool :=
  negb (status st =? "completed")%string
  && negb (terminal_failure (status st))
  && negb ((status st =? "requires_action")%string
           && existsb is_display (tool_calls st)).

(** The process after further calls. *)
Definition called (w : world) (cs : list call) : world :=
  {| csv_file := csv_file w; calls := (calls w ++ cs)%list |}.

(** The calls of a handler that submitted [msg], got the run [r] and
    found each status of [waiting] in turn, up to the retrieval of the
    status after them. *)
Definition calls_so_far (msg : value) (r : run) (waiting : list runStatus)
    : list call :=
  createAndRun ASSISTANT_ID msg
  :: flat_map (fun _ => [runs_retrieve (thread_id r) (id r); setTimeout 1000])
       waiting
  ++ [runs_retrieve (thread_id r) (id r)].

Definition is_submit (c : call) : bool :=
  match c with
  | submitToolOutputs _ _ _ => true
  | _ => false
  end.

Definition error_body (text : string) : value := VObj [("error", VStr text)].

(** A computation that makes calls, none of them a submission of tool
    outputs. *)
Definition quiet {A} (m : M A) : Prop :=
  forall w, exists cs,
    calls (snd (m w)) = (calls w ++ cs)%list /\ existsb is_submit cs = false.

(** The log file after the successful appends that wrote [rows], in
    this order. *)
Inductive appends : option (list line) -> list (list string)
                    -> option (list line) -> Prop :=
| appends_first (now : Z) (fault : option exn) (data : value) (w w' : world)
    (cells : list string) :
    logSignalToCsv now fault data w = (Normal tt, w') ->
    (record <- log_record now data ;; record_cells record)%res = Ok cells ->
    appends (csv_file w) [cells] (csv_file w')
| appends_next (before : option (list line)) (rows : list (list string))
    (now : Z) (fault : option exn) (data : value) (w w' : world)
    (cells : list string) :
    appends before rows (csv_file w) ->
    logSignalToCsv now fault data w = (Normal tt, w') ->
    (record <- log_record now data ;; record_cells record)%res = Ok cells ->
    appends before (rows ++ [cells])%list (csv_file w').

(** ** Requests and agents to run the model on *)
Module Sample.

Definition q : string := String Ascii_engine.quote EmptyString.

(** The arguments of the end-to-end case of the specification:
    a title X, a score of 85, a hook H and a source http://u. *)
Definition arguments : string :=
  "{" ++ q ++ "title" ++ q ++ ":" ++ q ++ "X" ++ q ++ ","
  ++ q ++ "score" ++ q ++ ":85,"
  ++ q ++ "hook" ++ q ++ ":" ++ q ++ "H" ++ q ++ ","
  ++ q ++ "sourceURL" ++ q ++ ":" ++ q ++ "http://u" ++ q ++ "}".

Definition signal : value :=
  VObj [("title", VStr "X"); ("score", VNum 85); ("hook", VStr "H");
        ("sourceURL", VStr "http://u")].

(** A score past the scale. *)
Definition arguments_150 : string := "{" ++ q ++ "score" ++ q ++ ":150}".

Definition display : toolCall :=
  {| function_name := "display_signal_card"; function_arguments := arguments |}.

Definition display_malformed : toolCall :=
  {| function_name := "display_signal_card"; function_arguments := "{title:" |}.

Definition lookup : toolCall :=
  {| function_name := "web_search"; function_arguments := "{}" |}.

Definition the_run : run := {| thread_id := "thread_1"; id := "run_1" |}.

Definition in_progress : runStatus := {| status := "in_progress"; tool_calls := [] |}.
Definition action (tcs : list toolCall) : runStatus :=
  {| status := "requires_action"; tool_calls := tcs |}.
Definition ended (s : string) : runStatus := {| status := s; tool_calls := [] |}.

(** An agent that answers the retrievals with [statuses]. *)
Definition agent (statuses : list runStatus) : environment :=
  {| now := 1700000000000;
     disk_error := None;
     created := Ok the_run;
     retrieved := map Ok statuses;
     listed := Ok [[TextPart "Here are the top signals."]] |}.

Definition request : value :=
  VObj [("messages", VArr [VObj [("content", VStr "first")];
                           VObj [("content", VStr "find signals")]])].

(** A last message without content, and one with an empty content. *)
Definition request_without_content : value :=
  VObj [("messages", VArr [VObj [("role", VStr "user")]])].
Definition request_with_empty_content : value :=
  VObj [("messages", VArr [VObj [("content", VStr "")]])].

Definition fresh : world := {| csv_file := None; calls := [] |}.

(** The card of [signal]. *)
Definition card : value :=
  match buildWidgetPayload (E := Ascii_engine.engine) signal with
  | Ok tree => tree
  | Throw _ => VUndefined
  end.

End Sample.

(** ** Vocabulary of the further properties *)

(** The polls after the first retrieval: [n] times a wait of one second
    and a retrieval. *)
Definition paced_polls (r : run) (n : nat) : list call :=
  List.concat (repeat [setTimeout 1000; runs_retrieve (thread_id r) (id r)] n).

(** The calls of one request, as far as it got. *)
Definition paced (cs : list call) : Prop :=
  cs = []
  \/ (exists msg, cs = [createAndRun ASSISTANT_ID msg])
  \/ (exists msg r n tail,
        cs = (createAndRun ASSISTANT_ID msg
              :: runs_retrieve (thread_id r) (id r)
              :: paced_polls r n ++ tail)%list
        /\ (tail = [] \/ tail = [messages_list (thread_id r)])).

(** A log file in order: absent, or the header row followed by record
    rows of seven cells. *)
Definition log_in_order (file : option (list line)) : Prop :=
  match file with
  | None => True
  | Some content =>
      exists rows,
        content = HeaderLine ["TIMESTAMP"; "TITLE"; "SCORE"; "MISSION";
                              "ARCHETYPE"; "HOOK"; "SOURCE"]
                  :: map RecordLine rows
        /\ Forall (fun cells => List.length cells = 7%nat) rows
  end.

(** The row that [logSignalToCsv] writes for [data] at the time [now]. *)
Definition row_of (now : Z) (data : value) : result (list string) :=
  (record <- log_record now data ;; record_cells record)%res.

Definition text_reply (text : string) : value :=
  VObj [("role", VStr "assistant"); ("content", VStr text)].

(** A value that a template literal can print. *)
Definition printable (v : value) : Prop := exists s, ToString v = Ok s.

(** What the polling loop leaves behind, [before] being the process
    when it started: it runs through or stays suspended without touching
    the log; it answers only with a card, whose row it has just appended;
    when it throws, the log is as it was, or has the row of a signal whose
    card could not be built. *)
Definition loop_post {E : Engine} (env : environment) (before : world)
    (out : completion unit * world) : Prop :=
  match fst out with
  | Normal _ | Pending => csv_file (snd out) = csv_file before
  | Returned x =>
      exists data card cells,
        x = Json 200 card
        /\ buildWidgetPayload data = Ok card
        /\ row_of (now env) data = Ok cells
        /\ disk_error env = None
        /\ csv_file (snd out) = Some (with_record (csv_file before) cells)
  | Thrown e =>
      csv_file (snd out) = csv_file before
      \/ exists data cells,
          buildWidgetPayload data = Throw e
          /\ row_of (now env) data = Ok cells
          /\ disk_error env = None
          /\ csv_file (snd out) = Some (with_record (csv_file before) cells)
  end.

(** What the loop leaves, started on the status [st]: its calls are
    paced, and it stays suspended only when every answer was a status on
    which the loop goes round. *)
Definition poll_spec {E : Engine} (env : environment) (r : run)
    (answers : list (result runStatus)) : Prop :=
  forall (st : runStatus) (w : world),
    (exists n, calls (snd (poll env r answers st w))
               = (calls w ++ paced_polls r n)%list)
    /\ loop_post env w (poll env r answers st w)
    /\ (fst (poll env r answers st w) = Pending ->
        exists sts,
          answers = map Ok sts /\ forallb keeps_polling (st :: sts) = true).

(** The same, started on a retrieval. *)
Definition retrieve_spec {E : Engine} (env : environment) (r : run)
    (answers : list (result runStatus)) : Prop :=
  forall w : world,
    (exists n, calls (snd (retrieve_and_poll env r answers w))
               = (calls w ++ runs_retrieve (thread_id r) (id r)
                             :: paced_polls r n)%list)
    /\ loop_post env w (retrieve_and_poll env r answers w)
    /\ (fst (retrieve_and_poll env r answers w) = Pending ->
        exists sts,
          answers = map Ok sts /\ forallb keeps_polling sts = true).

(** The response of the text path, from what [messages.list] resolves
    to. *)
Definition text_response (messages : result (list (list part))) : response :=
  match messages with
  | Ok data =>
      match first_text data with
      | Ok text => Json 200 (text_reply text)
      | Throw e => Json 500 (error_body (message e))
      end
  | Throw e => Json 500 (error_body (message e))
  end.

(** ** Further requests and agents to run the model on *)
Module Sample_more.

(** Arguments whose archetype is a number. *)
Definition arguments_archetype_5 : string :=
  "{" ++ Sample.q ++ "archetype" ++ Sample.q ++ ":5}".

Definition signal_archetype_5 : value := VObj [("archetype", VNum 5)].

Definition display_archetype_5 : toolCall :=
  {| function_name := "display_signal_card";
     function_arguments := arguments_archetype_5 |}.

Definition row_archetype_5 : list string :=
  match row_of 1700000000000 signal_archetype_5 with
  | Ok cells => cells
  | Throw _ => []
  end.

Definition error_archetype_5 : exn :=
  match buildWidgetPayload (E := Ascii_engine.engine) signal_archetype_5 with
  | Ok _ => Error ""
  | Throw e => e
  end.

(** The signal of [Sample], its entries in another order, with one more
    entry and other lenses. *)
Definition signal_reordered : value :=
  VObj [("confidence", VNum 3); ("sourceURL", VStr "http://u");
        ("hook", VStr "H"); ("lenses", VStr "Health");
        ("score", VNum 85); ("title", VStr "X")].

(** An agent that refuses the creation of the run. *)
Definition agent_refusing : environment :=
  {| now := 1700000000000;
     disk_error := None;
     created := Throw (Error "401 Incorrect API key provided");
     retrieved := [];
     listed := Ok [] |}.

(** An agent whose second retrieval is rejected. *)
Definition agent_dropping : environment :=
  {| now := 1700000000000;
     disk_error := None;
     created := Ok Sample.the_run;
     retrieved := [Ok Sample.in_progress; Throw (Error "Connection error.")];
     listed := Ok [] |}.

End Sample_more.

(* ================================================================= *)
(** * Properties *)

(** ** Printing and reading back an array index *)

Lemma array_index_of_nat (n : nat) :
  array_index (Number_toString (Z.of_nat n)) = Some n.
Proof.
  unfold array_index, Number_toString.
  assert (Hu : exists u, Z.to_int (Z.of_nat n) = Decimal.Pos u /\ u <> Decimal.Nil).
  { destruct (Z.of_nat n) eqn:Hz.
    - exists (Decimal.D0 Decimal.Nil). split; [reflexivity | discriminate].
    - exists (Pos.to_uint p). split; [reflexivity |].
      apply DecimalPos.Unsigned.to_uint_nonnil.
    - lia. }
  destruct Hu as [u [Hu Hnil]].
  assert (Hs : NilZero.string_of_int (Z.to_int (Z.of_nat n))
               = NilEmpty.string_of_uint u).
  { rewrite Hu. destruct u; try reflexivity. contradiction. }
  rewrite Hs, NilEmpty.usu, <- Hu, DecimalZ.of_to, Hs, String.eqb_refl.
  now rewrite Nat2Z.id.
Qed.

Lemma index_is_not_length (n : nat) :
  (Number_toString (Z.of_nat n) =? "length")%string = false.
Proof.
  destruct (String.eqb_spec (Number_toString (Z.of_nat n)) "length") as [H |];
    [| reflexivity].
  pose proof (array_index_of_nat n) as Hi. rewrite H in Hi. discriminate.
Qed.

Lemma nth_last_item {A} (l : list A) (d : A) :
  nth (List.length l - 1) l d = last l d.
Proof.
  destruct l as [| a l]; [reflexivity |].
  rewrite (app_removelast_last d (l := a :: l)) at 1 2 by discriminate.
  rewrite length_app, app_nth2; cbn [List.length]; [| lia].
  replace (_ - _)%nat with 0%nat by lia. reflexivity.
Qed.

(** ** The timestamp has the date-time format *)

Lemma is_digit_digit (n : Z) : is_digit (digit n) = true.
Proof.
  unfold is_digit, digit.
  assert (H : 0 <= n mod 10 < 10) by (apply Z.mod_pos_bound; lia).
  rewrite nat_ascii_embedding by lia.
  apply andb_true_intro; split; apply Nat.leb_le; lia.
Qed.

Lemma matches_digit (p : list (option ascii)) (c : ascii) (s : string) :
  is_digit c = true -> matches (None :: p) (String c s) = matches p s.
Proof. intros H. cbn [matches]. now rewrite H. Qed.

Lemma matches_char (p : list (option ascii)) (c : ascii) (s : string) :
  matches (Some c :: p) (String c s) = matches p s.
Proof. cbn [matches]. now rewrite Ascii.eqb_refl. Qed.

Ltac match_shape :=
  repeat first
    [ rewrite matches_char
    | rewrite matches_digit by apply is_digit_digit ].

Lemma matches_date_time (m d h mi sec ms : Z) :
  matches date_time_pattern
    ("-" ++ digits2 m ++ "-" ++ digits2 d ++ "T" ++ digits2 h ++ ":"
     ++ digits2 mi ++ ":" ++ digits2 sec ++ "." ++ digits3 ms ++ "Z") = true.
Proof.
  unfold date_time_pattern, digits3, digits2.
  cbn [append]. match_shape. reflexivity.
Qed.

Example toISOString_samples :
  map toISOString [0; 951782400000; 1700000000000; -1; 253402300800000]
  = ["1970-01-01T00:00:00.000Z"; "2000-02-29T00:00:00.000Z";
     "2023-11-14T22:13:20.000Z"; "1969-12-31T23:59:59.999Z";
     "+010000-01-01T00:00:00.000Z"].
Proof. reflexivity. Qed.

Lemma toISOString_iso8601 (t : Z) : iso8601 (toISOString t) = true.
Proof.
  unfold toISOString.
  destruct (civil_from_days (t / 86400000)) as [[y m] d].
  pose proof (matches_date_time m d (t mod 86400000 / 3600000)
                (t mod 86400000 / 60000 mod 60) (t mod 86400000 / 1000 mod 60)
                (t mod 86400000 mod 1000)) as Htail.
  revert Htail.
  generalize ("-" ++ digits2 m ++ "-" ++ digits2 d ++ "T"
     ++ digits2 (t mod 86400000 / 3600000) ++ ":"
     ++ digits2 (t mod 86400000 / 60000 mod 60) ++ ":"
     ++ digits2 (t mod 86400000 / 1000 mod 60) ++ "."
     ++ digits3 (t mod 86400000 mod 1000) ++ "Z")%string.
  intros tail Htail.
  unfold iso8601, year_string.
  destruct ((0 <=? y) && (y <=? 9999)).
  - apply orb_true_iff; left. apply orb_true_iff; left.
    unfold digits4, digits3, digits2.
    cbn [append app]. match_shape. exact Htail.
  - destruct (y <? 0); unfold digits6, digits4, digits3, digits2.
    + apply orb_true_iff; right.
      cbn [append app]. match_shape. exact Htail.
    + apply orb_true_iff; left. apply orb_true_iff; right.
      cbn [append app]. match_shape. exact Htail.
Qed.

(** ** The CSV logger *)

Lemma get_field (props : list (string * value)) (k : string) :
  get (VObj props) k = Ok (field (VObj props) k).
Proof. unfold field, get. now destruct (own props k). Qed.

Lemma SignalRecord_fields (data : value) :
  SignalRecord data = true ->
  (exists props, data = VObj props)
  /\ absent_or_string (field data "title") = true
  /\ absent_or_string (field data "mission") = true
  /\ absent_or_string (field data "archetype") = true
  /\ absent_or_string (field data "hook") = true
  /\ absent_or_string (field data "sourceURL") = true
  /\ absent_or_string (field data "lenses") = true
  /\ absent_or_number (field data "score") = true.
Proof.
  destruct data; try discriminate. intros H.
  unfold SignalRecord in H. cbn [forallb] in H.
  rewrite !andb_true_iff in H.
  intuition eauto.
Qed.

Lemma defaulted_string (v : value) (d : string) :
  absent_or_string v = true ->
  exists s, or_else v (VStr d) = VStr s
            /\ (v = VUndefined -> s = d)
            /\ (forall x, v = VStr x -> x <> "" -> s = x)%string.
Proof.
  destruct v; try discriminate; intros _; unfold or_else; cbn [ToBoolean].
  - exists d. repeat split; congruence.
  - destruct (String.eqb_spec s ""); cbn [negb].
    + exists d. repeat split; congruence.
    + exists s. repeat split; congruence.
Qed.

Lemma defaulted_number (v : value) :
  absent_or_number v = true ->
  exists n, or_else v (VNum 0) = VNum n
            /\ (v = VUndefined -> n = 0)
            /\ (forall x, v = VNum x -> n = x).
Proof.
  destruct v; try discriminate; intros _; unfold or_else; cbn [ToBoolean].
  - exists 0. repeat split; congruence.
  - destruct (Z.eqb_spec n 0); cbn [negb].
    + exists 0. repeat split; congruence.
    + exists n. repeat split; congruence.
Qed.

(** The lenses of a record do not reach the log: the record written for
    a signal with lenses is the one written without, and it has no
    lenses entry, placeholder or other. *)
Lemma log_record_has_no_lenses :
  log_record 0 (VObj [("lenses", VStr "Health")]) = log_record 0 (VObj [])
  /\ (record <- log_record 0 (VObj []) ;; get record "lenses")%res = Ok VUndefined
  /\ (record <- log_record 0 (VObj []) ;; record_cells record)%res
     = Ok ["1970-01-01T00:00:00.000Z"; "Unknown"; "0"; "Adj"; "Signal"; ""; ""].
Proof. repeat split. Qed.

(** Appending a record of the data model: what is written, and what
    each value is. *)
Lemma logSignalToCsv_typed
    (now : Z) (data : value) (w : world) :
  SignalRecord data = true ->
  exists (title mission archetype hook sourceURL : string) (score : Z),
    let record :=
      [("timestamp", VStr (toISOString now)); ("title", VStr title);
       ("score", VNum score); ("mission", VStr mission);
       ("archetype", VStr archetype); ("hook", VStr hook);
       ("sourceURL", VStr sourceURL)] in
    let cells :=
      [toISOString now; title; Number_toString score; mission; archetype;
       hook; sourceURL] in
    log_record now data = Ok (VObj record)
    /\ logSignalToCsv now None data w
       = (Normal tt,
          {| csv_file := Some (with_record (csv_file w) cells);
             calls := calls w |})
    /\ (field data "title" = VUndefined -> title = "Unknown")
    /\ (field data "score" = VUndefined -> score = 0)
    /\ (field data "mission" = VUndefined -> mission = "Adj")
    /\ (field data "archetype" = VUndefined -> archetype = "Signal")
    /\ (field data "hook" = VUndefined -> hook = "")
    /\ (field data "sourceURL" = VUndefined -> sourceURL = "")
    /\ (forall x, field data "title" = VStr x -> x <> "" -> title = x)
    /\ (forall x, field data "score" = VNum x -> score = x)
    /\ (forall x, field data "mission" = VStr x -> x <> "" -> mission = x)
    /\ (forall x, field data "archetype" = VStr x -> x <> "" -> archetype = x)
    /\ (forall x, field data "hook" = VStr x -> hook = x)
    /\ (forall x, field data "sourceURL" = VStr x -> sourceURL = x).
Proof.
  intros H. apply SignalRecord_fields in H.
  destruct H as [[props ->] (Ht & Hm & Ha & Hh & Hu & _ & Hs)].
  destruct (defaulted_string _ "Unknown" Ht) as (t & Et & Dt & Kt).
  destruct (defaulted_string _ "Adj" Hm) as (m & Em & Dm & Km).
  destruct (defaulted_string _ "Signal" Ha) as (a & Ea & Da & Ka).
  destruct (defaulted_string _ "" Hh) as (h & Eh & Dh & Kh).
  destruct (defaulted_string _ "" Hu) as (u & Eu & Du & Ku).
  destruct (defaulted_number _ Hs) as (n & En & Dn & Kn).
  exists t, m, a, h, u, n. cbv zeta.
  assert (Hrec : log_record now (VObj props)
                 = Ok (VObj [("timestamp", VStr (toISOString now));
                             ("title", VStr t); ("score", VNum n);
                             ("mission", VStr m); ("archetype", VStr a);
                             ("hook", VStr h); ("sourceURL", VStr u)])).
  { unfold log_record. rewrite !get_field. cbn [rbind].
    now rewrite Et, En, Em, Ea, Eh, Eu. }
  split; [exact Hrec |].
  split.
  { unfold logSignalToCsv, bind, existsSync, lift. rewrite Hrec.
    unfold writeRecords, bind, lift.
    destruct (csv_file w) as [content |] eqn:Hfile;
      cbn -[toISOString]; rewrite ?Hfile; reflexivity. }
  repeat split; auto.
  - intros x Hx. destruct (String.eqb_spec x "") as [-> | Hne]; auto.
    unfold or_else in Eh. rewrite Hx in Eh. cbn in Eh. congruence.
  - intros x Hx. destruct (String.eqb_spec x "") as [-> | Hne]; auto.
    unfold or_else in Eu. rewrite Hx in Eu. cbn in Eu. congruence.
Qed.

(** C3, as amended.  Appending a signal record, whichever of its fields
    are absent, writes exactly one row after the lines already there (and
    the header before it when the file is new); its columns are timestamp,
    title, score, mission, archetype, hook, sourceURL in this order; the
    timestamp is the write-time clock in the ISO 8601 date-time format; no
    value written is null or undefined: an absent score is written as 0, an
    absent title, mission and archetype as "Unknown", "Adj" and "Signal",
    an absent hook and sourceURL as the empty string, and a field that is
    there is written as it is.  The lenses are not written. *)
Theorem logSignalToCsv_writes_one_defaulted_row
    (now : Z) (data : value) (w : world) :
  SignalRecord data = true ->
  exists (title mission archetype hook sourceURL : string) (score : Z),
    let record :=
      [("timestamp", VStr (toISOString now)); ("title", VStr title);
       ("score", VNum score); ("mission", VStr mission);
       ("archetype", VStr archetype); ("hook", VStr hook);
       ("sourceURL", VStr sourceURL)] in
    let cells :=
      [toISOString now; title; Number_toString score; mission; archetype;
       hook; sourceURL] in
    log_record now data = Ok (VObj record)
    /\ logSignalToCsv now None data w
       = (Normal tt,
          {| csv_file := Some (with_record (csv_file w) cells);
             calls := calls w |})
    /\ iso8601 (toISOString now) = true
    /\ Forall present (map snd record)
    /\ (field data "title" = VUndefined -> title = "Unknown")
    /\ (field data "score" = VUndefined -> score = 0)
    /\ (field data "mission" = VUndefined -> mission = "Adj")
    /\ (field data "archetype" = VUndefined -> archetype = "Signal")
    /\ (field data "hook" = VUndefined -> hook = "")
    /\ (field data "sourceURL" = VUndefined -> sourceURL = "")
    /\ (forall x, field data "title" = VStr x -> x <> "" -> title = x)
    /\ (forall x, field data "score" = VNum x -> score = x)
    /\ (forall x, field data "mission" = VStr x -> x <> "" -> mission = x)
    /\ (forall x, field data "archetype" = VStr x -> x <> "" -> archetype = x)
    /\ (forall x, field data "hook" = VStr x -> hook = x)
    /\ (forall x, field data "sourceURL" = VStr x -> sourceURL = x).
Proof.
  intros H.
  destruct (logSignalToCsv_typed now data w H)
    as (t & m & a & h & u & n & Hrec & Hlog & Hfacts).
  exists t, m, a, h, u, n. cbv zeta.
  split; [exact Hrec |]. split; [exact Hlog |].
  split; [apply toISOString_iso8601 |].
  split; [| exact Hfacts].
  cbn [map snd]. repeat constructor; discriminate.
Qed.

Lemma logSignalToCsv_writes_one_defaulted_row_witness :
  exists cells,
    logSignalToCsv 0 None (VObj [("title", VStr "X"); ("score", VNum 85)])
      {| csv_file := None; calls := [] |}
    = (Normal tt,
       {| csv_file := Some (with_record None cells); calls := [] |}).
Proof.
  destruct (logSignalToCsv_writes_one_defaulted_row 0
              (VObj [("title", VStr "X"); ("score", VNum 85)])
              {| csv_file := None; calls := [] |} eq_refl)
    as (t & m & a & h & u & n & _ & Hlog & _).
  eexists. exact Hlog.
Defined.

Lemma get_some_all (data v : value) (k k' : string) :
  get data k = Ok v -> get data k' = Ok (field data k').
Proof.
  unfold field. destruct data; try discriminate; intros _;
    destruct (get _ k') eqn:Hk; try reflexivity; cbn in Hk.
  - discriminate.
  - discriminate.
  - destruct (k' =? "length")%string; [discriminate|].
    destruct (array_index k'); [destruct (String.get n s) |]; discriminate.
  - destruct (k' =? "length")%string; [discriminate|].
    destruct (array_index k'); discriminate.
  - destruct (own props k'); discriminate.
Qed.

Lemma log_record_of_fields (now : Z) (data v : value) (k : string) :
  get data k = Ok v ->
  log_record now data
  = Ok (VObj [("timestamp", VStr (toISOString now));
              ("title", or_else (field data "title") (VStr "Unknown"));
              ("score", or_else (field data "score") (VNum 0));
              ("mission", or_else (field data "mission") (VStr "Adj"));
              ("archetype", or_else (field data "archetype") (VStr "Signal"));
              ("hook", or_else (field data "hook") (VStr ""));
              ("sourceURL", or_else (field data "sourceURL") (VStr ""))]).
Proof.
  intros H. unfold log_record.
  now rewrite !(get_some_all data v k _ H).
Qed.

(** ** The widget builder *)

Section Widget_properties.
Context {E : Engine}.

Ltac step_result H :=
  match type of H with
  | rbind ?m _ = Ok _ =>
      let x := fresh "x" in
      let Hx := fresh "Hx" in
      destruct m as [x | ?] eqn:Hx; [cbn [rbind] in H | discriminate H]
  end.

(** What a card that was built holds, and where. *)
Lemma buildWidgetPayload_inv (data card : value) :
  buildWidgetPayload data = Ok card ->
  exists (score a archetype l title hook mission sourceURL : value)
         (color scoreText titleText hookText : string),
    score_of data = Ok score
    /\ scoreColor score = Ok color
    /\ get data "archetype" = Ok a
    /\ call_toUpperCase (or_else a (VStr "SIGNAL")) = Ok archetype
    /\ get data "lenses" = Ok l
    /\ ToString score = Ok scoreText
    /\ get data "title" = Ok title
    /\ get data "hook" = Ok hook
    /\ get data "mission" = Ok mission
    /\ ToString title = Ok titleText
    /\ ToString hook = Ok hookText
    /\ get data "sourceURL" = Ok sourceURL
    /\ at_path card archetype_caption = Ok archetype
    /\ at_path card score_label = Ok (VStr ("Score: " ++ scoreText ++ "/100"))
    /\ at_path card score_color = Ok (VStr color)
    /\ at_path card title_value = Ok title
    /\ at_path card hook_value = Ok hook
    /\ at_path card lenses_caption = Ok (or_else l (VStr "Tech, Social"))
    /\ at_path card mission_label = Ok mission
    /\ at_path card insert_text = Ok (VStr (titleText ++ ": " ++ hookText))
    /\ at_path card source_url = Ok sourceURL.
Proof.
  intros H. unfold buildWidgetPayload in H.
  do 12 step_result H.
  injection H as <-.
  exists x, x1, x2, x3, x5, x6, x7, x10, x0, x4, x8, x9.
  repeat (split; [first [assumption | reflexivity] |]). reflexivity.
Qed.

Lemma field_of_get (data v : value) (k : string) :
  get data k = Ok v -> field data k = v.
Proof. unfold field. now intros ->. Qed.

Ltac tier_cases Hnum :=
  repeat split; try assumption; try reflexivity; try discriminate;
  try (intros [? ?]; discriminate); try (intros ?; discriminate);
  try (match goal with
       | Hn : _ = VNum _ |- _ =>
           apply Hnum in Hn; try discriminate Hn; injection Hn as <-
       end; intros; try lia; try discriminate; reflexivity).

Lemma scoreColor_tier (score : value) (color : string) :
  scoreColor score = Ok color ->
  exists t : tier,
    color = emphasis t
    /\ (t = High <-> gt score 80 = Ok true)
    /\ (t = Medium <-> gt score 80 = Ok false /\ gt score 60 = Ok true)
    /\ (t = Low <-> gt score 80 = Ok false /\ gt score 60 = Ok false)
    /\ (forall n, score = VNum n ->
          (t = High <-> 80 < n)
          /\ (t = Medium <-> 60 < n <= 80)
          /\ (t = Low <-> n <= 60)).
Proof.
  intros Hcolor. unfold scoreColor, gt in Hcolor. unfold gt.
  destruct (ToNumber score) as [x |] eqn:Hx; [| discriminate].
  cbn [rbind] in Hcolor |- *.
  assert (Hnum : forall n, score = VNum n -> x = Some n).
  { intros n ->. cbn in Hx. congruence. }
  destruct x as [z |].
  - destruct (80 <? z) eqn:H80.
    + exists High. injection Hcolor as <-.
      apply Z.ltb_lt in H80.
      assert (H60 : (60 <? z) = true) by (apply Z.ltb_lt; lia).
      rewrite H60. tier_cases Hnum.
    + destruct (60 <? z) eqn:H60.
      * exists Medium. injection Hcolor as <-.
        apply Z.ltb_ge in H80. apply Z.ltb_lt in H60. tier_cases Hnum.
      * exists Low. injection Hcolor as <-.
        apply Z.ltb_ge in H80. apply Z.ltb_ge in H60. tier_cases Hnum.
  - exists Low. injection Hcolor as <-. tier_cases Hnum.
Qed.

(** C2.  The colour of the score badge is one of three, decided by the
    score, which is 0 when the record has none: the colour of the high
    tier exactly when score > 80, of the medium tier exactly when
    60 < score <= 80, of the low tier otherwise; 0 and 60 are low, 61 and
    80 medium, 81 and 100 high. *)
Theorem buildWidgetPayload_tier (data card : value) :
  buildWidgetPayload data = Ok card ->
  exists (score : value) (t : tier),
    score_of data = Ok score
    /\ score = or_else (field data "score") (VNum 0)
    /\ (field data "score" = VUndefined -> score = VNum 0)
    /\ at_path card score_color = Ok (VStr (emphasis t))
    /\ (t = High <-> gt score 80 = Ok true)
    /\ (t = Medium <-> gt score 80 = Ok false /\ gt score 60 = Ok true)
    /\ (t = Low <-> gt score 80 = Ok false /\ gt score 60 = Ok false)
    /\ (forall n, score = VNum n ->
          (t = High <-> 80 < n)
          /\ (t = Medium <-> 60 < n <= 80)
          /\ (t = Low <-> n <= 60))
    /\ (forall n, field data "score" = VNum n ->
          (t = High <-> 80 < n)
          /\ (t = Medium <-> 60 < n <= 80)
          /\ (t = Low <-> n <= 60))
    /\ (field data "score" = VUndefined -> t = Low)
    /\ (field data "score" = VNum 0 \/ field data "score" = VNum 60 -> t = Low)
    /\ (field data "score" = VNum 61 \/ field data "score" = VNum 80 ->
        t = Medium)
    /\ (field data "score" = VNum 81 \/ field data "score" = VNum 100 ->
        t = High)
    /\ map scoreColor [VNum 0; VNum 60; VNum 61; VNum 80; VNum 81; VNum 100]
       = map Ok (map emphasis [Low; Low; Medium; Medium; High; High]).
Proof.
  intros H. apply buildWidgetPayload_inv in H.
  destruct H as (score & a & archetype & l & title & hook & mission & sourceURL
                 & color & scoreText & titleText & hookText
                 & Hscore & Hcolor & _ & _ & _ & _ & Htitle & _ & _ & _ & _ & _
                 & _ & _ & Hpath & _).
  assert (Hsent : score = or_else (field data "score") (VNum 0)).
  { unfold score_of in Hscore.
    rewrite (get_some_all data title "title" "score" Htitle) in Hscore.
    cbn [rbind] in Hscore. congruence. }
  assert (Habsent : field data "score" = VUndefined -> score = VNum 0).
  { intros Hf. now rewrite Hsent, Hf. }
  assert (Hnumber : forall n, field data "score" = VNum n -> score = VNum n).
  { intros n Hf. rewrite Hsent, Hf. unfold or_else. cbn [ToBoolean].
    destruct (n =? 0) eqn:Hz; cbn [negb]; [| reflexivity].
    apply Z.eqb_eq in Hz. now subst n. }
  destruct (scoreColor_tier score color Hcolor) as (t & -> & Hh & Hm & Hl & Hn).
  exists score, t.
  split; [exact Hscore |]. split; [exact Hsent |].
  split; [exact Habsent |]. split; [exact Hpath |].
  split; [exact Hh |]. split; [exact Hm |]. split; [exact Hl |].
  split; [exact Hn |].
  split; [intros n Hf; exact (Hn n (Hnumber n Hf)) |].
  split; [intros Hf; apply (Hn 0 (Habsent Hf)); lia |].
  split; [intros [Hf | Hf]; apply (Hn _ (Hnumber _ Hf)); lia |].
  split; [intros [Hf | Hf]; apply (Hn _ (Hnumber _ Hf)); lia |].
  split; [intros [Hf | Hf]; apply (Hn _ (Hnumber _ Hf)); lia |].
  reflexivity.
Qed.

(** C7, as amended.  The score written to the log and the score shown in
    the badge are one value: the score of the parsed record, or 0 when the
    record has none.  Nothing checks it, so it is an integer from 0 to 100
    whenever the score that the agent sent is one or is absent. *)
Theorem score_is_the_one_sent (now : Z) (data record card : value) :
  log_record now data = Ok record ->
  buildWidgetPayload data = Ok card ->
  exists (score : value) (text : string),
    score = or_else (field data "score") (VNum 0)
    /\ get record "score" = Ok score
    /\ ToString score = Ok text
    /\ at_path card score_label = Ok (VStr ("Score: " ++ text ++ "/100"))
    /\ (field data "score" = VUndefined -> score = VNum 0 /\ text = "0")
    /\ (forall n, field data "score" = VNum n ->
          score = VNum n /\ text = Number_toString n)
    /\ (field data "score" = VUndefined \/ score_in_range (field data "score") ->
        score_in_range score).
Proof.
  intros Hrec H. apply buildWidgetPayload_inv in H.
  destruct H as (score & a & archetype & l & title & hook & mission & sourceURL
                 & color & scoreText & titleText & hookText
                 & Hscore & _ & _ & _ & _ & Htext & Htitle & _ & _ & _ & _ & _
                 & _ & Hlabel & _).
  rewrite (log_record_of_fields now data title "title" Htitle) in Hrec.
  injection Hrec as <-.
  unfold score_of in Hscore.
  rewrite (get_some_all data title "title" "score" Htitle) in Hscore.
  cbn [rbind] in Hscore. injection Hscore as <-.
  exists (or_else (field data "score") (VNum 0)), scoreText.
  split; [reflexivity |]. split; [reflexivity |].
  split; [exact Htext |]. split; [exact Hlabel |].
  split; [| split].
  - intros Hf. rewrite Hf in Htext |- *. cbn in Htext |- *.
    split; congruence.
  - intros n Hf. rewrite Hf in Htext |- *. unfold or_else in *.
    cbn [ToBoolean] in *. destruct (n =? 0) eqn:Hz;
      cbn [negb] in *; cbn [ToString] in Htext.
    + apply Z.eqb_eq in Hz. subst n. split; congruence.
    + split; congruence.
  - intros [Hf | (n & Hf & Hn)]; rewrite Hf; unfold or_else; cbn [ToBoolean].
    + exists 0. split; [reflexivity | lia].
    + destruct (Z.eqb_spec n 0) as [-> | Hz]; cbn [negb].
      * exists 0. split; [reflexivity | lia].
      * exists n. split; [reflexivity | lia].
Qed.

(** C10.  The builder gives a default to the score (0), to the archetype
    ("SIGNAL", then upper-cased) and to the lenses ("Tech, Social") only.
    The title, the hook, the mission and the sourceURL go into the card as
    they are: when one is absent, the Title or Text value, the Badge label
    or the url of the button action is undefined, while the log record of
    the same signal has its placeholder. *)
Theorem buildWidgetPayload_verbatim (now : Z) (data card : value) :
  buildWidgetPayload data = Ok card ->
  at_path card title_value = Ok (field data "title")
  /\ at_path card hook_value = Ok (field data "hook")
  /\ at_path card mission_label = Ok (field data "mission")
  /\ at_path card source_url = Ok (field data "sourceURL")
  /\ (exists titleText hookText,
        ToString (field data "title") = Ok titleText
        /\ ToString (field data "hook") = Ok hookText
        /\ at_path card insert_text = Ok (VStr (titleText ++ ": " ++ hookText)))
  /\ (exists scoreText,
        ToString (or_else (field data "score") (VNum 0)) = Ok scoreText
        /\ at_path card score_label = Ok (VStr ("Score: " ++ scoreText ++ "/100")))
  /\ at_path card archetype_caption
     = call_toUpperCase (or_else (field data "archetype") (VStr "SIGNAL"))
  /\ at_path card lenses_caption
     = Ok (or_else (field data "lenses") (VStr "Tech, Social"))
  /\ (field data "archetype" = VUndefined ->
      at_path card archetype_caption = Ok (VStr (toUpperCase "SIGNAL")))
  /\ (field data "lenses" = VUndefined ->
      at_path card lenses_caption = Ok (VStr "Tech, Social"))
  /\ (field data "title" = VUndefined ->
      at_path card title_value = Ok VUndefined
      /\ (record <- log_record now data ;; get record "title")%res
         = Ok (VStr "Unknown"))
  /\ (field data "hook" = VUndefined ->
      at_path card hook_value = Ok VUndefined
      /\ (record <- log_record now data ;; get record "hook")%res
         = Ok (VStr ""))
  /\ (field data "mission" = VUndefined ->
      at_path card mission_label = Ok VUndefined
      /\ (record <- log_record now data ;; get record "mission")%res
         = Ok (VStr "Adj"))
  /\ (field data "sourceURL" = VUndefined ->
      at_path card source_url = Ok VUndefined
      /\ (record <- log_record now data ;; get record "sourceURL")%res
         = Ok (VStr ""))
  /\ (field data "title" = VUndefined -> field data "hook" = VUndefined ->
      at_path card insert_text = Ok (VStr "undefined: undefined")).
Proof.
  intros H. apply buildWidgetPayload_inv in H.
  destruct H as (score & a & archetype & l & title & hook & mission & sourceURL
                 & color & scoreText & titleText & hookText
                 & Hscore & _ & Ha & Hup & Hl & Hst & Htitle & Hhook & Hmission
                 & Htt & Hht & Hurl
                 & Pa & Psl & _ & Pt & Ph & Pl & Pm & Pi & Pu).
  pose proof (log_record_of_fields now data title "title" Htitle) as Hrec.
  unfold score_of in Hscore.
  rewrite (get_some_all data title "title" "score" Htitle) in Hscore.
  cbn [rbind] in Hscore. injection Hscore as <-.
  apply field_of_get in Ha, Hl, Htitle, Hhook, Hmission, Hurl. subst.
  split; [exact Pt |]. split; [exact Ph |]. split; [exact Pm |].
  split; [exact Pu |].
  split; [exists titleText, hookText; auto |].
  split; [exists scoreText; auto |].
  split; [congruence |]. split; [exact Pl |].
  split; [intros Hf; rewrite Hf in Hup; cbn in Hup; congruence |].
  split; [intros Hf; rewrite Pl, Hf; reflexivity |].
  split; [| split; [| split; [| split]]];
    try (intros Hf; split; [congruence |];
         rewrite Hrec; cbn [rbind]; cbn; rewrite Hf; reflexivity).
  intros Ht Hh. rewrite Ht in Htt. rewrite Hh in Hht.
  cbn [ToString] in Htt, Hht. injection Htt as <-. injection Hht as <-.
  exact Pi.
Qed.

Lemma scoreColor_number (n : Z) :
  scoreColor (VNum n)
  = Ok (if 80 <? n then "success" else if 60 <? n then "warning" else "secondary").
Proof.
  unfold scoreColor, gt. cbn [ToNumber rbind].
  now destruct (80 <? n).
Qed.

(** A record of the data model always gets its card. *)
Lemma buildWidgetPayload_total (data : value) :
  SignalRecord data = true -> exists card, buildWidgetPayload data = Ok card.
Proof.
  intros H. apply SignalRecord_fields in H.
  destruct H as [[props ->] (Ht & Hm & Ha & Hh & Hu & Hl & Hs)].
  destruct (defaulted_number _ Hs) as (n & En & _).
  destruct (defaulted_string _ "SIGNAL" Ha) as (a & Ea & _).
  unfold buildWidgetPayload, score_of. rewrite !get_field. cbn [rbind].
  rewrite En, Ea, scoreColor_number. cbn [rbind call_toUpperCase ToString].
  destruct (field (VObj props) "title"); try discriminate;
    destruct (field (VObj props) "hook"); try discriminate;
    cbn [rbind ToString]; eauto.
Qed.

End Widget_properties.

(** ** The polling loop *)

Lemma called_called (w : world) (a b : list call) :
  called (called w a) b = called w (a ++ b).
Proof. unfold called. cbn. now rewrite app_assoc. Qed.

Lemma find_first {A} (f : A -> bool) (l : list A) (x : A) :
  find f l = Some x ->
  exists before after,
    l = (before ++ x :: after)%list /\ f x = true
    /\ forall y, In y before -> f y = false.
Proof.
  induction l as [| a l IH]; [discriminate |]. cbn [find].
  destruct (f a) eqn:Ha.
  - intros [= ->]. exists [], l. repeat split; auto. intros y [].
  - intros H. destruct (IH H) as (before & after & -> & Hx & Hb).
    exists (a :: before), after. repeat split; auto.
    intros y [<- | Hy]; auto.
Qed.

Lemma find_at_first {A} (f : A -> bool) (before after : list A) (x : A) :
  (forall y, In y before -> f y = false) -> f x = true ->
  find f (before ++ x :: after) = Some x.
Proof.
  intros Hb Hx. induction before as [| a before IH]; cbn [app find].
  - now rewrite Hx.
  - rewrite (Hb a (or_introl eq_refl)). apply IH.
    intros y Hy. apply Hb. now right.
Qed.

Lemma find_exists {A} (f : A -> bool) (l : list A) (x : A) :
  In x l -> f x = true -> exists y, find f l = Some y.
Proof.
  intros Hin Hx. destruct (find f l) as [y |] eqn:Hf; [eauto |].
  now rewrite (find_none f l Hf x Hin) in Hx.
Qed.

Lemma logSignalToCsv_calls (now : Z) (fault : option exn) (data : value)
    (w : world) :
  calls (snd (logSignalToCsv now fault data w)) = calls w.
Proof.
  unfold logSignalToCsv, bind, existsSync, lift, writeRecords, bind, lift, throw, ret.
  destruct (log_record now data) as [record |]; [| reflexivity].
  destruct (record_cells record); [| reflexivity].
  destruct fault; [reflexivity |].
  destruct (title <- get record "title" ;; ToString title)%res; reflexivity.
Qed.

Lemma logSignalToCsv_appends (now : Z) (data : value) (w : world) :
  SignalRecord data = true ->
  exists cells,
    (record <- log_record now data ;; record_cells record)%res = Ok cells
    /\ logSignalToCsv now None data w
       = (Normal tt,
          {| csv_file := Some (with_record (csv_file w) cells); calls := calls w |}).
Proof.
  intros H.
  destruct (logSignalToCsv_typed now data w H)
    as (t & m & a & h & u & n & Hrec & Hlog & _).
  eexists. split; [| exact Hlog]. now rewrite Hrec.
Qed.

Lemma quiet_ret {A} (a : A) : quiet (ret a).
Proof. intros w. exists []. cbn. now rewrite app_nil_r. Qed.

Lemma quiet_lift {A} (x : result A) : quiet (lift x).
Proof. intros w. exists []. destruct x; cbn; now rewrite app_nil_r. Qed.

Lemma quiet_throw {A} (e : exn) : quiet (@throw A e).
Proof. intros w. exists []. cbn. now rewrite app_nil_r. Qed.

Lemma quiet_respond {A} (x : response) : quiet (@respond A x).
Proof. intros w. exists []. cbn. now rewrite app_nil_r. Qed.

Lemma quiet_suspended {A} : quiet (@suspended A).
Proof. intros w. exists []. cbn. now rewrite app_nil_r. Qed.

Lemma quiet_perform (c : call) : is_submit c = false -> quiet (perform c).
Proof. intros H w. exists [c]. cbn. now rewrite H. Qed.

Lemma quiet_bind {A B} (m : M A) (k : A -> M B) :
  quiet m -> (forall a, quiet (k a)) -> quiet (bind m k).
Proof.
  intros Hm Hk w. unfold bind.
  destruct (Hm w) as (cs & Hcs & Hq).
  destruct (m w) as [[a | x | e |] w1]; cbn [snd] in Hcs;
    try (exists cs; cbn [snd]; now split).
  destruct (Hk a w1) as (cs' & Hcs' & Hq').
  exists (cs ++ cs')%list. rewrite Hcs', Hcs, app_assoc, existsb_app, Hq, Hq'.
  now split.
Qed.

Lemma quiet_logSignalToCsv (now : Z) (fault : option exn) (data : value) :
  quiet (logSignalToCsv now fault data).
Proof.
  intros w. exists []. rewrite logSignalToCsv_calls, app_nil_r. now split.
Qed.

Section Chat_properties.
Context {E : Engine}.
Variable env : environment.
Variable r : run.

Lemma quiet_inspect (st : runStatus) : quiet (inspect env st).
Proof.
  unfold inspect. apply quiet_bind.
  - destruct (terminal_failure (status st)); [apply quiet_throw | apply quiet_ret].
  - intros _. destruct (status st =? "requires_action")%string; [| apply quiet_ret].
    destruct (find is_display (tool_calls st)); [| apply quiet_ret].
    unfold show_card.
    apply quiet_bind; [apply quiet_lift | intros data].
    apply quiet_bind; [apply quiet_logSignalToCsv | intros _].
    apply quiet_bind; [apply quiet_lift | intros card]. apply quiet_respond.
Qed.

Lemma quiet_poll (answers : list (result runStatus)) (st : runStatus) :
  quiet (poll env r answers st).
Proof.
  revert st. induction answers as [| a answers IH]; intros st; cbn [poll];
    (destruct (status st =? "completed")%string; [apply quiet_ret |]);
    (apply quiet_bind; [apply quiet_inspect | intros _]);
    (apply quiet_bind; [now apply quiet_perform | intros _]);
    (apply quiet_bind; [now apply quiet_perform | intros _]).
  - apply quiet_suspended.
  - destruct a; [apply IH | apply quiet_throw].
Qed.

Lemma quiet_retrieve_and_poll (answers : list (result runStatus)) :
  quiet (retrieve_and_poll env r answers).
Proof.
  unfold retrieve_and_poll.
  apply quiet_bind; [now apply quiet_perform | intros _].
  destruct answers as [| [st | e] rest];
    [apply quiet_suspended | apply quiet_poll | apply quiet_throw].
Qed.

Lemma quiet_text_completion : quiet (text_completion env r).
Proof.
  unfold text_completion.
  apply quiet_bind; [now apply quiet_perform | intros _].
  apply quiet_bind; [apply quiet_lift | intros ms].
  apply quiet_bind; [apply quiet_lift | intros t]. apply quiet_respond.
Qed.

Lemma inspect_keeps_polling (st : runStatus) (w : world) :
  keeps_polling st = true -> inspect env st w = (Normal tt, w).
Proof.
  unfold keeps_polling. rewrite !andb_true_iff, !negb_true_iff.
  intros [[_ Hfail] Hcard]. unfold inspect, bind. rewrite Hfail. cbn.
  destruct (status st =? "requires_action")%string; [| reflexivity].
  cbn [andb] in Hcard.
  destruct (find is_display (tool_calls st)) as [tc |] eqn:Hfind; [| reflexivity].
  apply find_some in Hfind. destruct Hfind as [Hin Htc].
  assert (Hex : existsb is_display (tool_calls st) = true)
    by (apply existsb_exists; eauto).
  congruence.
Qed.

Lemma poll_step (answers : list (result runStatus)) (st : runStatus) (w : world) :
  poll env r answers st w
  = if (status st =? "completed")%string then (Normal tt, w)
    else (_ <- inspect env st ;;
          _ <- perform (setTimeout 1000) ;;
          retrieve_and_poll env r answers)%M w.
Proof.
  destruct answers; cbn [poll];
    destruct (status st =? "completed")%string; reflexivity.
Qed.

Lemma poll_keeps_polling (answers : list (result runStatus)) (st : runStatus)
    (w : world) :
  keeps_polling st = true ->
  poll env r answers st w
  = retrieve_and_poll env r answers (called w [setTimeout 1000]).
Proof.
  intros H. rewrite poll_step. pose proof H as H'.
  unfold keeps_polling in H'. rewrite !andb_true_iff, !negb_true_iff in H'.
  destruct H' as [[-> _] _].
  unfold bind at 1. now rewrite inspect_keeps_polling.
Qed.

(** Going through the statuses on which the loop goes round. *)
Lemma retrieve_and_poll_waiting (waiting : list runStatus)
    (answers : list (result runStatus)) (w : world) :
  forallb keeps_polling waiting = true ->
  retrieve_and_poll env r (map Ok waiting ++ answers) w
  = retrieve_and_poll env r answers
      (called w (flat_map (fun _ => [runs_retrieve (thread_id r) (id r);
                                     setTimeout 1000]) waiting)).
Proof.
  revert w. induction waiting as [| st waiting IH]; intros w H.
  - cbn [map app flat_map]. unfold called. rewrite app_nil_r. now destruct w.
  - cbn [forallb] in H. apply andb_true_iff in H. destruct H as [Hst Hw].
    cbn [map app flat_map].
    unfold retrieve_and_poll at 1. unfold bind, perform.
    rewrite (poll_keeps_polling _ _ _ Hst).
    rewrite (IH _ Hw). f_equal.
    unfold called. cbn. now rewrite <- !app_assoc.
Qed.

(** The handler up to the status that follows the waiting ones. *)
Lemma chat_try_reaches (body msg : value) (text : string)
    (waiting : list runStatus) (st : runStatus) (rest : list (result runStatus))
    (w : world) :
  userMessage_of body = Ok msg ->
  ToString msg = Ok text ->
  created env = Ok r ->
  retrieved env = (map Ok waiting ++ Ok st :: rest)%list ->
  forallb keeps_polling waiting = true ->
  chat_try env body w
  = (_ <- poll env r rest st ;; text_completion env r)%M
      (called w (calls_so_far msg r waiting)).
Proof.
  intros Hmsg Htext Hrun Hans Hwait.
  unfold chat_try, bind, lift, perform.
  rewrite Hmsg. cbv beta iota. rewrite Htext. cbv beta iota.
  rewrite Hrun, Hans. cbv beta iota.
  rewrite (retrieve_and_poll_waiting _ _ _ Hwait).
  unfold retrieve_and_poll, bind, perform. cbv beta iota.
  unfold calls_so_far, called. cbn [csv_file calls].
  now rewrite <- !app_assoc.
Qed.

End Chat_properties.

(** ** The chat handler *)

Section Chat_handler.
Context {E : Engine}.

Lemma quiet_chat_try (env : environment) (body : value) :
  quiet (chat_try env body).
Proof.
  unfold chat_try.
  apply quiet_bind; [apply quiet_lift | intros msg].
  apply quiet_bind; [apply quiet_lift | intros _].
  apply quiet_bind; [now apply quiet_perform | intros _].
  apply quiet_bind; [apply quiet_lift | intros r].
  apply quiet_bind; [apply quiet_retrieve_and_poll | intros _].
  apply quiet_text_completion.
Qed.

Lemma chat_world (env : environment) (body : value) (w : world) :
  snd (chat env body w) = snd (chat_try env body w).
Proof.
  unfold chat. destruct (chat_try env body w) as [[[] | x | e |] w']; reflexivity.
Qed.

(** The handler never submits tool outputs. *)
Lemma chat_never_submits (env : environment) (body : value) (w : world) :
  exists cs,
    calls (snd (chat env body w)) = (calls w ++ cs)%list
    /\ existsb is_submit cs = false.
Proof. rewrite chat_world. apply quiet_chat_try. Qed.

Lemma chat_catches (env : environment) (body : value) (w w' : world) (e : exn) :
  chat_try env body w = (Thrown e, w') ->
  chat env body w = (Some (Json 500 (error_body (message e))), w').
Proof. unfold chat. now intros ->. Qed.

Lemma chat_returns (env : environment) (body : value) (w w' : world)
    (x : response) :
  chat_try env body w = (Returned x, w') -> chat env body w = (Some x, w').
Proof. unfold chat. now intros ->. Qed.

Lemma chat_pending (env : environment) (body : value) (w w' : world) :
  chat_try env body w = (Pending, w') -> chat env body w = (None, w').
Proof. unfold chat. now intros ->. Qed.

Lemma calls_so_far_quiet (msg : value) (r : run) (waiting : list runStatus) :
  existsb is_submit (calls_so_far msg r waiting) = false.
Proof.
  unfold calls_so_far. cbn [existsb is_submit orb].
  rewrite existsb_app. cbn [existsb is_submit orb].
  rewrite orb_false_r.
  induction waiting as [| st waiting IH]; [reflexivity |].
  cbn [flat_map]. rewrite existsb_app. now rewrite IH.
Qed.

(** The card block never runs through and makes no call. *)
Lemma show_card_ends (env : environment) (tc : toolCall) (w : world) :
  calls (snd (show_card env tc w)) = calls w
  /\ forall a, fst (show_card env tc w) <> Normal a.
Proof.
  unfold show_card, bind, lift, respond.
  destruct (JSON_parse (function_arguments tc)) as [data |];
    [| split; [reflexivity | discriminate]].
  pose proof (logSignalToCsv_calls (now env) (disk_error env) data w) as Hc.
  destruct (logSignalToCsv (now env) (disk_error env) data w)
    as [[[] | x | e |] w3]; cbn [snd] in Hc;
    try (split; [exact Hc | discriminate]).
  destruct (buildWidgetPayload data); split; try exact Hc; discriminate.
Qed.

Lemma bind_ends {A B} (m : M A) (k : A -> M B) (w : world) :
  (forall a, fst (m w) <> Normal a) ->
  bind m k w
  = (match fst (m w) with
     | Returned x => Returned x
     | Thrown e => Thrown e
     | _ => Pending
     end, snd (m w)).
Proof.
  unfold bind. destruct (m w) as [[a | x | e |] w']; cbn [fst snd];
    intros H; try reflexivity.
  now destruct (H a).
Qed.

(** The loop on a status that asks for the card. *)
Lemma poll_display (env : environment) (r : run)
    (rest : list (result runStatus)) (st : runStatus) (tc : toolCall)
    (w : world) :
  status st = "requires_action" ->
  find is_display (tool_calls st) = Some tc ->
  poll env r rest st w
  = (match fst (show_card env tc w) with
     | Returned x => Returned x
     | Thrown e => Thrown e
     | _ => Pending
     end, snd (show_card env tc w)).
Proof.
  intros Hst Hfind. rewrite poll_step, Hst. cbn [String.eqb Ascii.eqb Bool.eqb].
  assert (Hi : inspect env st w = show_card env tc w).
  { unfold inspect. rewrite Hst, Hfind. reflexivity. }
  rewrite bind_ends; rewrite Hi; [reflexivity | apply show_card_ends].
Qed.

(** C1.  When a poll answers requires_action with a tool call named
    display_signal_card, the handler takes the first such call, submits no
    tool outputs (its calls are the creation of the run, the retrievals and
    the waits) and, the argument string parsing as a signal record and the
    disk taking the write, appends the record to the log and answers with
    the card built from it. *)
Theorem display_signal_card_ends_the_turn
    (env : environment) (body msg : value) (text : string) (r : run)
    (waiting : list runStatus) (st : runStatus) (rest : list (result runStatus))
    (tc : toolCall) (w : world) :
  userMessage_of body = Ok msg ->
  ToString msg = Ok text ->
  created env = Ok r ->
  retrieved env = (map Ok waiting ++ Ok st :: rest)%list ->
  forallb keeps_polling waiting = true ->
  status st = "requires_action" ->
  In tc (tool_calls st) ->
  function_name tc = "display_signal_card" ->
  exists (displayAction : toolCall) (before after : list toolCall),
    tool_calls st = (before ++ displayAction :: after)%list
    /\ function_name displayAction = "display_signal_card"
    /\ (forall x, In x before -> function_name x <> "display_signal_card")
    /\ calls (snd (chat env body w)) = (calls w ++ calls_so_far msg r waiting)%list
    /\ existsb is_submit (calls_so_far msg r waiting) = false
    /\ forall data,
        JSON_parse (function_arguments displayAction) = Ok data ->
        SignalRecord data = true ->
        disk_error env = None ->
        exists (card : value) (cells : list string),
          buildWidgetPayload data = Ok card
          /\ (record <- log_record (now env) data ;; record_cells record)%res
             = Ok cells
          /\ chat env body w
             = (Some (Json 200 card),
                {| csv_file := Some (with_record (csv_file w) cells);
                   calls := (calls w ++ calls_so_far msg r waiting)%list |}).
Proof.
  intros Hmsg Htext Hrun Hans Hwait Hst Hin Hname.
  assert (Hdisp : is_display tc = true)
    by (unfold is_display; rewrite Hname; reflexivity).
  destruct (find_exists _ _ _ Hin Hdisp) as [displayAction Hfind].
  destruct (find_first _ _ _ Hfind) as (before & after & Hsplit & Hd & Hbefore).
  exists displayAction, before, after.
  split; [exact Hsplit |].
  split; [now apply String.eqb_eq |].
  split.
  { intros x Hx Hxn. apply Hbefore in Hx. unfold is_display in Hx.
    rewrite Hxn in Hx. discriminate. }
  pose proof (chat_try_reaches env r body msg text waiting st rest w
                Hmsg Htext Hrun Hans Hwait) as Hreach.
  set (w1 := called w (calls_so_far msg r waiting)) in *.
  pose proof (poll_display env r rest st displayAction w1 Hst Hfind) as Hpoll.
  destruct (show_card_ends env displayAction w1) as [Hcalls Hends].
  split.
  { rewrite chat_world, Hreach. unfold bind. rewrite Hpoll.
    destruct (fst (show_card env displayAction w1)); exact Hcalls. }
  split; [apply calls_so_far_quiet |].
  intros data Hparse Hrecord Hdisk.
  destruct (buildWidgetPayload_total data Hrecord) as [card Hcard].
  destruct (logSignalToCsv_appends (now env) data w1 Hrecord)
    as (cells & Hcells & Hlog).
  exists card, cells. split; [exact Hcard |]. split; [exact Hcells |].
  apply chat_returns. rewrite Hreach. unfold bind. rewrite Hpoll.
  unfold show_card, bind, lift, respond.
  rewrite Hparse, Hdisk, Hlog, Hcard. reflexivity.
Qed.

(** C9.  When the arguments of the display_signal_card call that the
    handler takes are not valid JSON, the response is the 500 with the
    parse error and the log file is as it was: the parse comes before the
    append, and nothing is written. *)
Theorem malformed_arguments_leave_the_log
    (env : environment) (body msg : value) (text : string) (r : run)
    (waiting : list runStatus) (st : runStatus) (rest : list (result runStatus))
    (before after : list toolCall) (tc : toolCall) (e : exn) (w : world) :
  userMessage_of body = Ok msg ->
  ToString msg = Ok text ->
  created env = Ok r ->
  retrieved env = (map Ok waiting ++ Ok st :: rest)%list ->
  forallb keeps_polling waiting = true ->
  status st = "requires_action" ->
  tool_calls st = (before ++ tc :: after)%list ->
  (forall x, In x before -> function_name x <> "display_signal_card") ->
  function_name tc = "display_signal_card" ->
  JSON_parse (function_arguments tc) = Throw e ->
  chat env body w
  = (Some (Json 500 (error_body (message e))),
     {| csv_file := csv_file w;
        calls := (calls w ++ calls_so_far msg r waiting)%list |})
  /\ csv_file (snd (chat env body w)) = csv_file w.
Proof.
  intros Hmsg Htext Hrun Hans Hwait Hst Hsplit Hbefore Hname Hparse.
  assert (Hfind : find is_display (tool_calls st) = Some tc).
  { rewrite Hsplit. apply find_at_first.
    - intros x Hx. unfold is_display. apply String.eqb_neq. now apply Hbefore.
    - unfold is_display. now apply String.eqb_eq. }
  assert (H : chat env body w
              = (Some (Json 500 (error_body (message e))),
                 {| csv_file := csv_file w;
                    calls := (calls w ++ calls_so_far msg r waiting)%list |})).
  { apply chat_catches.
    rewrite (chat_try_reaches env r body msg text waiting st rest w
               Hmsg Htext Hrun Hans Hwait).
    unfold bind. rewrite (poll_display env r rest st tc _ Hst Hfind).
    unfold show_card, bind, lift. rewrite Hparse. reflexivity. }
  split; [exact H |]. now rewrite H.
Qed.

Lemma append_not_empty (a b : string) : a <> "" -> (a ++ b)%string <> "".
Proof. destruct a; [congruence | discriminate]. Qed.

(** C5.  When the status of the run becomes failed, cancelled or
    expired, the handler throws an error that carries the status, and the
    response is the 500 whose body has this message, not empty, as its
    error; every error thrown in the handler gets the 500 with its message
    as the error of the body. *)
Theorem failed_run_answers_500
    (env : environment) (body msg : value) (text : string) (r : run)
    (waiting : list runStatus) (st : runStatus) (rest : list (result runStatus))
    (w : world) :
  userMessage_of body = Ok msg ->
  ToString msg = Ok text ->
  created env = Ok r ->
  retrieved env = (map Ok waiting ++ Ok st :: rest)%list ->
  forallb keeps_polling waiting = true ->
  In (status st) ["failed"; "cancelled"; "expired"] ->
  let error := Error ("Run failed with status: " ++ status st) in
  let after := called w (calls_so_far msg r waiting) in
  chat_try env body w = (Thrown error, after)
  /\ chat env body w = (Some (Json 500 (error_body (message error))), after)
  /\ message error <> ""
  /\ forall env' body' w' e w'',
      chat_try env' body' w' = (Thrown e, w'') ->
      chat env' body' w' = (Some (Json 500 (error_body (message e))), w'').
Proof.
  intros Hmsg Htext Hrun Hans Hwait Hst. cbv zeta.
  assert (Hfail : terminal_failure (status st) = true).
  { cbn [In] in Hst. unfold terminal_failure.
    destruct Hst as [<- | [<- | [<- | []]]]; reflexivity. }
  assert (Hnot : (status st =? "completed")%string = false).
  { cbn [In] in Hst. destruct Hst as [<- | [<- | [<- | []]]]; reflexivity. }
  assert (H : chat_try env body w
              = (Thrown (Error ("Run failed with status: " ++ status st)),
                 called w (calls_so_far msg r waiting))).
  { rewrite (chat_try_reaches env r body msg text waiting st rest w
               Hmsg Htext Hrun Hans Hwait).
    unfold bind at 1. rewrite poll_step, Hnot.
    unfold inspect, bind, throw. rewrite Hfail. reflexivity. }
  split; [exact H |].
  split; [now apply chat_catches |].
  split; [now apply append_not_empty |].
  intros env' body' w' e w''. apply chat_catches.
Qed.

Lemma keeps_polling_other_action (st : runStatus) :
  status st = "requires_action" ->
  (forall tc, In tc (tool_calls st) -> function_name tc <> "display_signal_card") ->
  keeps_polling st = true.
Proof.
  intros Hst Hnone. unfold keeps_polling. rewrite Hst.
  cbn [String.eqb Ascii.eqb Bool.eqb negb andb terminal_failure orb].
  apply negb_true_iff. apply not_true_is_false. intros Hex.
  apply existsb_exists in Hex. destruct Hex as (tc & Hin & Htc).
  apply (Hnone tc Hin). now apply String.eqb_eq.
Qed.

(** C6.  On a requires_action status without a display_signal_card call
    the handler neither answers nor throws: it waits 1000 ms, retrieves
    the status again and goes on with what it gets.  While the statuses it
    gets are of this kind, or others on which the loop goes round, no
    response is sent and the log is not touched. *)
Theorem other_action_keeps_polling
    (env : environment) (r : run) (st : runStatus) (w : world) :
  status st = "requires_action" ->
  (forall tc, In tc (tool_calls st) -> function_name tc <> "display_signal_card") ->
  let again := [setTimeout 1000; runs_retrieve (thread_id r) (id r)] in
  inspect env st w = (Normal tt, w)
  /\ (forall next rest,
        poll env r (Ok next :: rest) st w = poll env r rest next (called w again))
  /\ poll env r [] st w = (Pending, called w again)
  /\ (forall body msg text before after,
        userMessage_of body = Ok msg ->
        ToString msg = Ok text ->
        created env = Ok r ->
        retrieved env = map Ok (before ++ st :: after) ->
        forallb keeps_polling (before ++ after) = true ->
        fst (chat env body w) = None
        /\ csv_file (snd (chat env body w)) = csv_file w).
Proof.
  intros Hst Hnone. cbv zeta.
  pose proof (keeps_polling_other_action st Hst Hnone) as Hkeep.
  split; [now apply inspect_keeps_polling |].
  split.
  { intros next rest. rewrite (poll_keeps_polling env r _ _ _ Hkeep).
    unfold retrieve_and_poll, bind, perform. cbv beta iota.
    f_equal. unfold called. cbn [csv_file calls]. now rewrite <- app_assoc. }
  split.
  { rewrite (poll_keeps_polling env r _ _ _ Hkeep).
    unfold retrieve_and_poll, bind, perform, suspended. cbv beta iota.
    f_equal. unfold called. cbn [csv_file calls]. now rewrite <- app_assoc. }
  intros body msg text before after Hmsg Htext Hrun Hans Hwait.
  assert (Hall : forallb keeps_polling (before ++ st :: after) = true).
  { rewrite forallb_app in Hwait |- *. cbn [forallb].
    apply andb_true_iff in Hwait. destruct Hwait as [-> ->]. now rewrite Hkeep. }
  assert (H : chat_try env body w
              = (Pending,
                 called (called w [createAndRun ASSISTANT_ID msg])
                   (flat_map (fun _ => [runs_retrieve (thread_id r) (id r);
                                        setTimeout 1000]) (before ++ st :: after)
                    ++ [runs_retrieve (thread_id r) (id r)]))).
  { unfold chat_try, bind, lift, perform.
    rewrite Hmsg. cbv beta iota. rewrite Htext. cbv beta iota.
    rewrite Hrun, Hans. cbv beta iota.
    rewrite <- (app_nil_r (map Ok (before ++ st :: after))).
    rewrite (retrieve_and_poll_waiting env r _ _ _ Hall).
    unfold retrieve_and_poll, bind, perform, suspended. cbv beta iota.
    f_equal. unfold called. cbn [csv_file calls]. now rewrite <- !app_assoc. }
  rewrite (chat_pending _ _ _ _ H). split; reflexivity.
Qed.

Lemma get_last_item (items : list value) :
  items <> [] ->
  (len <- get (VArr items) "length" ;;
   k <- minus_key len 1 ;;
   get (VArr items) k)%res
  = Ok (last items VUndefined).
Proof.
  intros Hne. cbn [get String.eqb Ascii.eqb Bool.eqb rbind minus_key ToNumber].
  assert (Hlen : Z.of_nat (List.length items) - 1
                 = Z.of_nat (List.length items - 1)).
  { destruct items; [contradiction | cbn [List.length]; lia]. }
  rewrite Hlen, index_is_not_length, array_index_of_nat, nth_last_item.
  reflexivity.
Qed.

(** The first call of the handler submits the message it took. *)
Lemma chat_submits (env : environment) (body msg : value) (text : string)
    (w : world) :
  userMessage_of body = Ok msg ->
  ToString msg = Ok text ->
  exists rest,
    calls (snd (chat env body w))
    = (calls w ++ createAndRun ASSISTANT_ID msg :: rest)%list.
Proof.
  intros Hmsg Htext. rewrite chat_world.
  unfold chat_try, bind at 1 2 3, lift, perform. rewrite Hmsg, Htext.
  match goal with
  | |- context [bind ?m ?k ?w1] =>
      assert (Hq : quiet (bind m k)); [| destruct (Hq w1) as (cs & Hcs & _)]
  end.
  { apply quiet_bind; [apply quiet_lift | intros r].
    apply quiet_bind; [apply quiet_retrieve_and_poll | intros _].
    apply quiet_text_completion. }
  exists cs. rewrite Hcs. cbn [calls]. now rewrite <- app_assoc.
Qed.

(** C4, as amended.  The message submitted to the agent is the content of
    the last element of the messages list when the list is there and not
    empty, otherwise the text field when it is there, otherwise "Find top
    signals".  Taken from the text field or from the fallback it is never
    empty nor undefined; taken from the list it is the content of the last
    element, whatever that is. *)
Theorem userMessage_selection (env : environment) (body : value) (w : world) :
  (forall items,
      get body "messages" = Ok (VArr items) -> items <> [] ->
      userMessage_of body = get (last items VUndefined) "content")
  /\ (forall m text,
        get body "messages" = Ok m ->
        ToBoolean m = false \/ m = VArr [] ->
        get body "text" = Ok text ->
        (ToBoolean text = true -> userMessage_of body = Ok text)
        /\ (ToBoolean text = false ->
            userMessage_of body = Ok (VStr "Find top signals"))
        /\ exists msg,
            userMessage_of body = Ok msg
            /\ ToBoolean msg = true /\ msg <> VUndefined /\ msg <> VStr "")
  /\ (forall msg text,
        userMessage_of body = Ok msg ->
        ToString msg = Ok text ->
        exists rest,
          calls (snd (chat env body w))
          = (calls w ++ createAndRun ASSISTANT_ID msg :: rest)%list).
Proof.
  split; [| split].
  - intros items Hm Hne. unfold userMessage_of. rewrite Hm.
    cbn [rbind ToBoolean get String.eqb Ascii.eqb Bool.eqb gt ToNumber].
    assert (Hpos : (0 <? Z.of_nat (List.length items)) = true).
    { apply Z.ltb_lt. destruct items; [contradiction | cbn [List.length]; lia]. }
    rewrite Hpos.
    pose proof (get_last_item items Hne) as Hlast.
    cbn [get String.eqb Ascii.eqb Bool.eqb rbind] in Hlast.
    cbn [minus_key ToNumber rbind] in Hlast |- *.
    now rewrite Hlast.
  - intros m text Hm Hempty Htext.
    assert (Hsel : userMessage_of body
                   = Ok (if ToBoolean text then text else VStr "Find top signals")).
    { unfold userMessage_of. rewrite Hm. cbn [rbind].
      destruct Hempty as [Hfalse | ->].
      - rewrite Hfalse. cbn [rbind]. rewrite Htext. cbn [rbind].
        now destruct (ToBoolean text).
      - cbn [ToBoolean get String.eqb Ascii.eqb Bool.eqb rbind gt ToNumber
             List.length Z.of_nat Z.ltb Z.compare].
        rewrite Htext. cbn [rbind]. now destruct (ToBoolean text). }
    rewrite Hsel. split; [now intros -> |]. split; [now intros -> |].
    destruct (ToBoolean text) eqn:Ht.
    + exists text. repeat split; auto; intros ->; discriminate.
    + exists (VStr "Find top signals"). repeat split; discriminate.
  - intros msg text. apply chat_submits.
Qed.

End Chat_handler.

(** ** The download route *)

Lemma logSignalToCsv_written (now : Z) (fault : option exn) (data : value)
    (w w' : world) (cells : list string) :
  logSignalToCsv now fault data w = (Normal tt, w') ->
  (record <- log_record now data ;; record_cells record)%res = Ok cells ->
  csv_file w' = Some (with_record (csv_file w) cells).
Proof.
  unfold logSignalToCsv, bind, existsSync, lift, writeRecords, bind, lift, throw.
  destruct (log_record now data) as [record |]; [| discriminate].
  cbn [rbind]. intros H Hcells. rewrite Hcells in H.
  destruct fault; [discriminate |].
  destruct (title <- get record "title" ;; ToString title)%res; [| discriminate].
  injection H as <-. cbn [csv_file].
  unfold with_record. now destruct (csv_file w).
Qed.

Lemma appends_content (before : option (list line)) (rows : list (list string))
    (after : option (list line)) :
  appends before rows after ->
  rows <> []
  /\ after = Some ((match before with
                    | Some content => content
                    | None => [HeaderLine ["TIMESTAMP"; "TITLE"; "SCORE";
                                           "MISSION"; "ARCHETYPE"; "HOOK";
                                           "SOURCE"]]
                    end ++ map RecordLine rows)%list).
Proof.
  induction 1 as [now fault data w w' cells Hlog Hcells
                 | before rows now fault data w w' cells Hprev IH Hlog Hcells].
  - split; [discriminate |].
    now rewrite (logSignalToCsv_written _ _ _ _ _ _ Hlog Hcells).
  - destruct IH as [_ IH]. split; [now destruct rows |].
    rewrite (logSignalToCsv_written _ _ _ _ _ _ Hlog Hcells), IH.
    unfold with_record. now rewrite map_app, app_assoc.
Qed.

(** C8.  Before any record was appended, the log file not existing, the
    download route answers 404 with a plain text; after one append or more
    it sends the file, which is the header row followed by the rows
    appended, in their order. *)
Theorem download_csv_serves_the_log (w : world) :
  csv_file w = None ->
  download_csv w = Send 404 "No signals have been logged yet."
  /\ forall rows w',
      appends (csv_file w) rows (csv_file w') ->
      rows <> []
      /\ download_csv w'
         = Download (HeaderLine ["TIMESTAMP"; "TITLE"; "SCORE"; "MISSION";
                                 "ARCHETYPE"; "HOOK"; "SOURCE"]
                     :: map RecordLine rows).
Proof.
  intros Hnone. split; [unfold download_csv; now rewrite Hnone |].
  intros rows w' H. apply appends_content in H. rewrite Hnone in H.
  destruct H as [Hne Hfile]. split; [exact Hne |].
  unfold download_csv. now rewrite Hfile.
Qed.

(* ================================================================= *)
(** * The properties at work, on the ASCII engine *)

#[local] Existing Instance Ascii_engine.engine.

(** The end-to-end case of the specification: the agent asks for the
    card at once; one row with the score 85 is logged under the header, and
    the card has the badge of the high tier and the title X. *)
Example end_to_end :
  JSON_parse Sample.arguments = Ok Sample.signal
  /\ chat (Sample.agent [Sample.action [Sample.display]]) Sample.request Sample.fresh
     = (Some (Json 200 Sample.card),
        {| csv_file :=
             Some [HeaderLine ["TIMESTAMP"; "TITLE"; "SCORE"; "MISSION";
                               "ARCHETYPE"; "HOOK"; "SOURCE"];
                   RecordLine ["2023-11-14T22:13:20.000Z"; "X"; "85"; "Adj";
                               "Signal"; "H"; "http://u"]];
           calls := [createAndRun ASSISTANT_ID (VStr "find signals");
                     runs_retrieve "thread_1" "run_1"] |})
  /\ at_path Sample.card score_color = Ok (VStr "success")
  /\ at_path Sample.card score_label = Ok (VStr "Score: 85/100")
  /\ at_path Sample.card title_value = Ok (VStr "X").
Proof. repeat split; vm_compute; reflexivity. Qed.

Lemma display_signal_card_ends_the_turn_witness :
  exists card cells,
    chat (Sample.agent [Sample.in_progress;
                        Sample.action [Sample.lookup; Sample.display]])
      Sample.request Sample.fresh
    = (Some (Json 200 card),
       {| csv_file := Some (with_record None cells);
          calls := calls_so_far (VStr "find signals") Sample.the_run
                     [Sample.in_progress] |}).
Proof.
  destruct (display_signal_card_ends_the_turn
              (Sample.agent [Sample.in_progress;
                             Sample.action [Sample.lookup; Sample.display]])
              Sample.request (VStr "find signals") "find signals"
              Sample.the_run [Sample.in_progress]
              (Sample.action [Sample.lookup; Sample.display]) []
              Sample.display Sample.fresh
              eq_refl eq_refl eq_refl eq_refl eq_refl eq_refl
              (or_intror (or_introl eq_refl)) eq_refl)
    as (d & before & after & Hsplit & Hname & _ & _ & _ & Hdata).
  assert (Hd : d = Sample.display).
  { cbn [Sample.action tool_calls] in Hsplit.
    destruct before as [| x [| y before]]; cbn [app] in Hsplit.
    - injection Hsplit as <- _. discriminate Hname.
    - now injection Hsplit as _ <- _.
    - destruct before; discriminate Hsplit. }
  subst d.
  destruct (Hdata Sample.signal eq_refl eq_refl eq_refl)
    as (card & cells & _ & _ & Hchat).
  exists card, cells. exact Hchat.
Defined.

Lemma buildWidgetPayload_tier_witness :
  buildWidgetPayload Sample.signal = Ok Sample.card
  /\ field Sample.signal "score" = VNum 85
  /\ at_path Sample.card score_color = Ok (VStr (emphasis High))
  /\ exists (score : value) (t : tier),
      score_of Sample.signal = Ok score
      /\ at_path Sample.card score_color = Ok (VStr (emphasis t))
      /\ (t = High <-> gt score 80 = Ok true).
Proof.
  split; [reflexivity |]. split; [reflexivity |].
  destruct (buildWidgetPayload_tier Sample.signal Sample.card eq_refl)
    as (score & t & Hscore & _ & _ & Hcolor & Hhigh & _ & _ & _ & Hfield & _).
  split.
  - destruct (Hfield 85 eq_refl) as [Ht _].
    assert (Hlt : 80 < 85) by lia.
    apply Ht in Hlt. now rewrite <- Hlt.
  - exists score, t. auto.
Defined.

(** The message of a request whose last message has no content, or an
    empty one, goes to the agent as it is, undefined or empty, whatever
    the agent then answers. *)
Lemma message_without_content_is_submitted :
  userMessage_of Sample.request_without_content = Ok VUndefined
  /\ (forall env, exists rest,
        calls (snd (chat env Sample.request_without_content Sample.fresh))
        = createAndRun ASSISTANT_ID VUndefined :: rest)
  /\ userMessage_of Sample.request_with_empty_content = Ok (VStr "")
  /\ (forall env, exists rest,
        calls (snd (chat env Sample.request_with_empty_content Sample.fresh))
        = createAndRun ASSISTANT_ID (VStr "") :: rest).
Proof.
  split; [reflexivity |]. split.
  { intros env.
    exact (chat_submits env Sample.request_without_content VUndefined
             "undefined" Sample.fresh eq_refl eq_refl). }
  split; [reflexivity |].
  intros env.
  exact (chat_submits env Sample.request_with_empty_content (VStr "")
           "" Sample.fresh eq_refl eq_refl).
Qed.

Lemma userMessage_selection_witness :
  userMessage_of Sample.request = Ok (VStr "find signals")
  /\ userMessage_of (VObj [("messages", VArr []); ("text", VStr "hello")])
     = Ok (VStr "hello")
  /\ userMessage_of (VObj []) = Ok (VStr "Find top signals")
  /\ exists rest,
      calls (snd (chat (Sample.agent [Sample.ended "completed"])
                    Sample.request Sample.fresh))
      = createAndRun ASSISTANT_ID (VStr "find signals") :: rest.
Proof.
  destruct (userMessage_selection (Sample.agent [Sample.ended "completed"])
              Sample.request Sample.fresh) as (Hlist & _ & Hsent).
  destruct (userMessage_selection (Sample.agent [Sample.ended "completed"])
              (VObj [("messages", VArr []); ("text", VStr "hello")])
              Sample.fresh) as (_ & Htext & _).
  destruct (userMessage_selection (Sample.agent [Sample.ended "completed"])
              (VObj []) Sample.fresh) as (_ & Hnone & _).
  split.
  { rewrite (Hlist _ eq_refl); [reflexivity | discriminate]. }
  split.
  { destruct (Htext (VArr []) (VStr "hello") eq_refl (or_intror eq_refl) eq_refl)
      as (H & _). exact (H eq_refl). }
  split.
  { destruct (Hnone VUndefined VUndefined eq_refl (or_introl eq_refl) eq_refl)
      as (_ & H & _). exact (H eq_refl). }
  exact (Hsent (VStr "find signals") "find signals" eq_refl eq_refl).
Defined.

Lemma failed_run_answers_500_witness :
  chat (Sample.agent [Sample.in_progress; Sample.ended "expired"])
    Sample.request Sample.fresh
  = (Some (Json 500 (error_body "Run failed with status: expired")),
     called Sample.fresh
       (calls_so_far (VStr "find signals") Sample.the_run [Sample.in_progress])).
Proof.
  destruct (failed_run_answers_500
              (Sample.agent [Sample.in_progress; Sample.ended "expired"])
              Sample.request (VStr "find signals") "find signals"
              Sample.the_run [Sample.in_progress] (Sample.ended "expired") []
              Sample.fresh eq_refl eq_refl eq_refl eq_refl eq_refl
              (or_intror (or_intror (or_introl eq_refl))))
    as (_ & H & _).
  exact H.
Defined.

Lemma other_action_keeps_polling_witness :
  poll (Sample.agent []) Sample.the_run [] (Sample.action [Sample.lookup])
    Sample.fresh
  = (Pending,
     called Sample.fresh [setTimeout 1000; runs_retrieve "thread_1" "run_1"]).
Proof.
  assert (Hnone : forall tc,
             In tc (tool_calls (Sample.action [Sample.lookup])) ->
             function_name tc <> "display_signal_card").
  { intros tc [<- | []]. discriminate. }
  destruct (other_action_keeps_polling (Sample.agent []) Sample.the_run
              (Sample.action [Sample.lookup]) Sample.fresh eq_refl Hnone)
    as (_ & _ & H & _).
  exact H.
Defined.

(** A score of 150 in the arguments is logged and displayed as 150. *)
Lemma score_out_of_range_is_kept :
  exists data record card,
    JSON_parse Sample.arguments_150 = Ok data
    /\ log_record 0 data = Ok record
    /\ buildWidgetPayload data = Ok card
    /\ get record "score" = Ok (VNum 150)
    /\ at_path card score_label = Ok (VStr "Score: 150/100")
    /\ ~ score_in_range (VNum 150).
Proof.
  do 3 eexists. repeat split; try reflexivity.
  intros (n & Hn & Hrange). injection Hn as <-. lia.
Qed.

Lemma score_is_the_one_sent_witness :
  exists record,
    log_record 0 Sample.signal = Ok record
    /\ get record "score" = Ok (VNum 85)
    /\ at_path Sample.card score_label = Ok (VStr "Score: 85/100")
    /\ score_in_range (VNum 85).
Proof.
  eexists. split; [reflexivity |].
  destruct (score_is_the_one_sent 0 Sample.signal _ Sample.card eq_refl eq_refl)
    as (score & text & -> & Hlogged & Htext & Hlabel & _ & _ & Hrange).
  split; [exact Hlogged |]. split.
  - injection Htext as <-. exact Hlabel.
  - apply Hrange. right. exists 85. split; [reflexivity | lia].
Defined.

Lemma download_csv_serves_the_log_witness :
  download_csv Sample.fresh = Send 404 "No signals have been logged yet."
  /\ exists w',
      logSignalToCsv 0 None Sample.signal Sample.fresh = (Normal tt, w')
      /\ download_csv w'
         = Download [HeaderLine ["TIMESTAMP"; "TITLE"; "SCORE"; "MISSION";
                                 "ARCHETYPE"; "HOOK"; "SOURCE"];
                     RecordLine ["1970-01-01T00:00:00.000Z"; "X"; "85"; "Adj";
                                 "Signal"; "H"; "http://u"]].
Proof.
  destruct (download_csv_serves_the_log Sample.fresh eq_refl) as [H404 Hlog].
  split; [exact H404 |].
  eexists. split; [reflexivity |].
  refine (proj2 (Hlog [_] {| csv_file := _; calls := [] |} _)).
  exact (appends_first 0 None Sample.signal Sample.fresh _ _ eq_refl eq_refl).
Defined.

Lemma malformed_arguments_leave_the_log_witness :
  chat (Sample.agent [Sample.action [Sample.display_malformed]])
    Sample.request Sample.fresh
  = (Some (Json 500 (error_body "Unexpected token in JSON")),
     {| csv_file := None;
        calls := calls_so_far (VStr "find signals") Sample.the_run [] |}).
Proof.
  assert (Hparse : JSON_parse (function_arguments Sample.display_malformed)
                   = Throw (SyntaxError "Unexpected token in JSON"))
    by reflexivity.
  destruct (malformed_arguments_leave_the_log
              (Sample.agent [Sample.action [Sample.display_malformed]])
              Sample.request (VStr "find signals") "find signals"
              Sample.the_run [] (Sample.action [Sample.display_malformed]) []
              [] [] Sample.display_malformed
              (SyntaxError "Unexpected token in JSON") Sample.fresh
              eq_refl eq_refl eq_refl eq_refl eq_refl eq_refl eq_refl
              (fun x (H : In x []) => match H with end) eq_refl Hparse)
    as [H _].
  exact H.
Defined.

Lemma buildWidgetPayload_verbatim_witness :
  at_path Sample.card title_value = Ok (VStr "X")
  /\ at_path Sample.card mission_label = Ok VUndefined
  /\ (record <- log_record 0 Sample.signal ;; get record "mission")%res
     = Ok (VStr "Adj").
Proof.
  destruct (buildWidgetPayload_verbatim 0 Sample.signal Sample.card eq_refl)
    as (Htitle & _ & _ & _ & _ & _ & _ & _ & _ & _ & _ & _ & Hmission & _ & _).
  split; [exact Htitle |]. exact (Hmission eq_refl).
Defined.

(* ================================================================= *)
(** * Further properties *)

(** ** The logger on any data *)

Lemma stringify_fields_length (vs : list value) (cs : list string) :
  stringify_fields vs = Ok cs -> List.length cs = List.length vs.
Proof.
  revert cs. induction vs as [| v vs IH]; intros cs; cbn [stringify_fields].
  - now intros [= <-].
  - destruct (stringify_field v); [| discriminate]. cbn [rbind].
    destruct (stringify_fields vs) as [cs' |]; [| discriminate]. cbn [rbind].
    intros [= <-]. cbn [List.length]. now rewrite (IH cs').
Qed.

Lemma record_cells_length (record : value) (cells : list string) :
  record_cells record = Ok cells -> List.length cells = 7%nat.
Proof.
  unfold record_cells, header.
  cbn -[get stringify_fields].
  repeat match goal with
         | |- context [get record ?k] =>
             destruct (get record k); cbn [rbind]; [| discriminate]
         end.
  intros H. now rewrite (stringify_fields_length _ _ H).
Qed.

Lemma or_else_truthy (v d : value) :
  ToBoolean d = true -> ToBoolean (or_else v d) = true.
Proof. unfold or_else. now destruct (ToBoolean v) eqn:H. Qed.

Lemma stringify_truthy (v : value) :
  ToBoolean v = true -> stringify_field v = ToString v.
Proof. now destruct v. Qed.

Lemma stringify_second (a b : value) (rest : list value) (cells : list string) :
  stringify_fields (a :: b :: rest) = Ok cells ->
  stringify_field b = Ok (nth 1 cells "").
Proof.
  cbn [stringify_fields].
  destruct (stringify_field a); [| discriminate]. cbn [rbind].
  destruct (stringify_field b); [| discriminate]. cbn [rbind].
  destruct (stringify_fields rest); [| discriminate]. cbn [rbind].
  now intros [= <-].
Qed.

Lemma log_record_reads (now : Z) (data record : value) :
  log_record now data = Ok record -> get data "title" = Ok (field data "title").
Proof.
  unfold log_record. destruct (get data "title") as [t |] eqn:H; [| discriminate].
  intros _. now rewrite (field_of_get _ _ _ H).
Qed.

(** The logger either completes, one row written, or throws, nothing
    written. *)
Lemma logSignalToCsv_outcome (now : Z) (fault : option exn) (data : value)
    (w : world) :
  (exists cells,
      row_of now data = Ok cells /\ fault = None
      /\ logSignalToCsv now fault data w
         = (Normal tt,
            {| csv_file := Some (with_record (csv_file w) cells);
               calls := calls w |}))
  \/ (exists e,
        logSignalToCsv now fault data w = (Thrown e, w)
        /\ (row_of now data = Throw e
            \/ (fault = Some e /\ exists cells, row_of now data = Ok cells))).
Proof.
  unfold row_of, logSignalToCsv, bind, existsSync, lift.
  destruct (log_record now data) as [record |] eqn:Hrec; cbn [rbind];
    [| right; eauto].
  pose proof (log_record_reads now data record Hrec) as Htitle.
  rewrite (log_record_of_fields now data _ "title" Htitle) in Hrec.
  injection Hrec as <-.
  unfold writeRecords, bind, lift, throw.
  match goal with |- context [record_cells ?rec] => set (record := rec) end.
  destruct (record_cells record) as [cells |] eqn:Hcells; [| right; eauto].
  destruct fault as [e |]; [right; exists e; split; eauto |].
  left. exists cells. split; [reflexivity |]. split; [reflexivity |].
  assert (Hprint : (title <- get record "title" ;; ToString title)%res
                   = Ok (nth 1 cells "")).
  { unfold record_cells, header, record in Hcells.
    cbn [get own String.eqb Ascii.eqb Bool.eqb rbind] in Hcells.
    apply stringify_second in Hcells.
    unfold record. cbn [get own String.eqb Ascii.eqb Bool.eqb rbind].
    rewrite <- Hcells. symmetry.
    apply stringify_truthy, or_else_truthy. reflexivity. }
  rewrite Hprint. unfold ret, with_record.
  now destruct (csv_file w).
Qed.

(** ** The loop, whatever the agent answers *)

Section Loop.
Context {E : Engine}.
Variable env : environment.
Variable r : run.

Lemma show_card_post (tc : toolCall) (w : world) :
  loop_post env w (show_card env tc w)
  /\ calls (snd (show_card env tc w)) = calls w
  /\ (forall a, fst (show_card env tc w) <> Normal a)
  /\ fst (show_card env tc w) <> Pending.
Proof.
  destruct (show_card_ends env tc w) as [Hcalls Hends].
  split; [| split; [exact Hcalls | split; [exact Hends |]]].
  - unfold loop_post, show_card, bind, lift, respond.
    destruct (JSON_parse (function_arguments tc)) as [data |]; [| now left].
    destruct (logSignalToCsv_outcome (now env) (disk_error env) data w)
      as [(cells & Hrow & Hdisk & ->) | (e & -> & _)]; [| now left].
    destruct (buildWidgetPayload data) as [card |] eqn:Hcard; cbn [fst snd].
    + exists data, card, cells. auto.
    + right. exists data, cells. auto.
  - unfold show_card, bind, lift, respond.
    destruct (JSON_parse (function_arguments tc)) as [data |];
      [| cbn [fst]; discriminate].
    destruct (logSignalToCsv_outcome (now env) (disk_error env) data w)
      as [(cells & _ & _ & ->) | (e & -> & _)]; [| cbn [fst]; discriminate].
    destruct (buildWidgetPayload data); cbn [fst]; discriminate.
Qed.

(** The three ways of the loop body on a status that is not completed. *)
Lemma inspect_cases (st : runStatus) (w : world) :
  (status st =? "completed")%string = false ->
  (keeps_polling st = true /\ inspect env st w = (Normal tt, w))
  \/ (terminal_failure (status st) = true
      /\ inspect env st w
         = (Thrown (Error ("Run failed with status: " ++ status st)), w))
  \/ (exists tc,
        status st = "requires_action"
        /\ find is_display (tool_calls st) = Some tc
        /\ inspect env st w = show_card env tc w).
Proof.
  intros Hnot. unfold inspect, bind, throw.
  destruct (terminal_failure (status st)) eqn:Hfail; [right; left; auto |].
  cbn [ret].
  destruct (status st =? "requires_action")%string eqn:Hact.
  - destruct (find is_display (tool_calls st)) as [tc |] eqn:Hfind.
    + right. right. exists tc. apply String.eqb_eq in Hact. auto.
    + left. split; [| reflexivity]. unfold keeps_polling.
      rewrite Hnot, Hfail, Hact. cbn [negb andb].
      apply negb_true_iff. apply not_true_is_false. intros Hex.
      apply existsb_exists in Hex. destruct Hex as (tc & Hin & Htc).
      now rewrite (find_none _ _ Hfind tc Hin) in Htc.
  - left. split; [| reflexivity]. unfold keeps_polling.
    now rewrite Hnot, Hfail, Hact.
Qed.

Lemma poll_unfold (answers : list (result runStatus)) (st : runStatus)
    (w : world) :
  poll env r answers st w
  = if (status st =? "completed")%string then (Normal tt, w)
    else match inspect env st w with
         | (Normal _, w1) =>
             retrieve_and_poll env r answers (called w1 [setTimeout 1000])
         | (Returned x, w1) => (Returned x, w1)
         | (Thrown e, w1) => (Thrown e, w1)
         | (Pending, w1) => (Pending, w1)
         end.
Proof.
  rewrite poll_step. destruct (status st =? "completed")%string; [reflexivity |].
  unfold bind at 1. destruct (inspect env st w) as [[[] | x | e |] w1];
    reflexivity.
Qed.

Lemma retrieve_and_poll_unfold (answers : list (result runStatus)) (w : world) :
  retrieve_and_poll env r answers w
  = let w1 := called w [runs_retrieve (thread_id r) (id r)] in
    match answers with
    | [] => (Pending, w1)
    | Throw e :: _ => (Thrown e, w1)
    | Ok next :: rest => poll env r rest next w1
    end.
Proof. destruct answers as [| [next | e] rest]; reflexivity. Qed.

Lemma poll_of_retrieve (answers : list (result runStatus)) :
  retrieve_spec env r answers -> poll_spec env r answers.
Proof.
  intros Hr st w. rewrite poll_unfold.
  destruct (status st =? "completed")%string eqn:Hdone.
  { split; [exists 0%nat; cbn; now rewrite app_nil_r |].
    split; [reflexivity | discriminate]. }
  destruct (inspect_cases st w Hdone)
    as [[Hkeep ->] | [[Hfail ->] | (tc & Hact & Hfind & ->)]].
  - destruct (Hr (called w [setTimeout 1000])) as ((n & Hn) & Hpost & Hpend).
    split; [| split].
    + exists (S n). rewrite Hn. cbn [called calls paced_polls repeat concat app].
      now rewrite <- app_assoc.
    + exact Hpost.
    + intros Hp. destruct (Hpend Hp) as (sts & -> & Hall).
      exists sts. cbn [forallb]. now rewrite Hkeep, Hall.
  - split; [exists 0%nat; cbn; now rewrite app_nil_r |].
    split; [now left | discriminate].
  - destruct (show_card_post tc w) as (Hpost & Hcalls & Hn & Hp).
    destruct (show_card env tc w) as [[[] | x | e |] w1];
      cbn [fst snd] in Hcalls, Hn, Hp.
    + now destruct (Hn tt).
    + split; [exists 0%nat; cbn [snd paced_polls repeat concat];
              now rewrite app_nil_r |].
      split; [exact Hpost | discriminate].
    + split; [exists 0%nat; cbn [snd paced_polls repeat concat];
              now rewrite app_nil_r |].
      split; [exact Hpost | discriminate].
    + now destruct Hp.
Qed.

Lemma retrieve_and_poll_post (answers : list (result runStatus)) :
  retrieve_spec env r answers.
Proof.
  induction answers as [| a answers IH]; intros w;
    rewrite retrieve_and_poll_unfold; cbv zeta.
  - split; [exists 0%nat; reflexivity |].
    split; [reflexivity |]. intros _. now exists [].
  - destruct a as [next | e].
    + destruct (poll_of_retrieve answers IH next
                  (called w [runs_retrieve (thread_id r) (id r)]))
        as ((n & Hn) & Hpost & Hpend).
      split; [| split].
      * exists n. rewrite Hn. cbn [called calls]. now rewrite <- app_assoc.
      * exact Hpost.
      * intros Hp. destruct (Hpend Hp) as (sts & -> & Hall).
        now exists (next :: sts).
    + split; [exists 0%nat; reflexivity |].
      split; [now left | discriminate].
Qed.

End Loop.

(** ** The handler, whatever the request and the agent *)

Section Handler_cases.
Context {E : Engine}.

Lemma text_completion_run (env : environment) (r : run) (w : world) :
  text_completion env r w
  = (match text_response (listed env) with
     | Json 200 body => Returned (Json 200 body)
     | _ =>
         match listed env with
         | Throw e => Thrown e
         | Ok data =>
             match first_text data with
             | Throw e => Thrown e
             | Ok text => Returned (Json 200 (text_reply text))
             end
         end
     end, called w [messages_list (thread_id r)]).
Proof.
  unfold text_completion, bind, perform, lift, respond, text_response.
  destruct (listed env) as [data |]; [| reflexivity].
  destruct (first_text data); reflexivity.
Qed.

Lemma chat_of_text_completion (env : environment) (body : value) (r : run)
    (w w1 : world) :
  chat_try env body w = text_completion env r w1 ->
  chat env body w
  = (Some (text_response (listed env)), called w1 [messages_list (thread_id r)]).
Proof.
  intros H. unfold chat. rewrite H, text_completion_run.
  unfold text_response.
  destruct (listed env) as [data |]; [| reflexivity].
  destruct (first_text data); reflexivity.
Qed.

(** The handler, step by step. *)
Lemma chat_cases (env : environment) (body : value) (w : world) :
  (exists e,
      (userMessage_of body = Throw e
       \/ exists msg, userMessage_of body = Ok msg /\ ToString msg = Throw e)
      /\ chat env body w = (Some (Json 500 (error_body (message e))), w))
  \/ exists msg text,
      userMessage_of body = Ok msg /\ ToString msg = Ok text
      /\ let w1 := called w [createAndRun ASSISTANT_ID msg] in
         (exists e,
             created env = Throw e
             /\ chat env body w = (Some (Json 500 (error_body (message e))), w1))
         \/ exists r,
             created env = Ok r
             /\ match retrieve_and_poll env r (retrieved env) w1 with
                | (Normal _, w2) =>
                    chat env body w
                    = (Some (text_response (listed env)),
                       called w2 [messages_list (thread_id r)])
                | (Returned x, w2) => chat env body w = (Some x, w2)
                | (Thrown e, w2) =>
                    chat env body w
                    = (Some (Json 500 (error_body (message e))), w2)
                | (Pending, w2) => chat env body w = (None, w2)
                end.
Proof.
  destruct (userMessage_of body) as [msg |] eqn:Hmsg.
  2:{ left. exists e. split; [now left |].
      apply chat_catches. unfold chat_try, bind, lift. now rewrite Hmsg. }
  destruct (ToString msg) as [text |] eqn:Htext.
  2:{ left. exists e. split; [right; eauto |].
      apply chat_catches. unfold chat_try, bind, lift. now rewrite Hmsg, Htext. }
  right. exists msg, text. split; [first [assumption | reflexivity] |].
  split; [first [assumption | reflexivity] |].
  cbv zeta.
  destruct (created env) as [r |] eqn:Hrun.
  2:{ left. exists e. split; [first [assumption | reflexivity] |].
      apply chat_catches. unfold chat_try, bind, lift, perform.
      now rewrite Hmsg, Htext, Hrun. }
  right. exists r. split; [first [assumption | reflexivity] |].
  assert (Htry : chat_try env body w
                 = (_ <- retrieve_and_poll env r (retrieved env) ;;
                    text_completion env r)%M
                     (called w [createAndRun ASSISTANT_ID msg])).
  { unfold chat_try, bind, lift, perform. now rewrite Hmsg, Htext, Hrun. }
  unfold bind in Htry.
  destruct (retrieve_and_poll env r (retrieved env)
              (called w [createAndRun ASSISTANT_ID msg]))
    as [[[] | x | e |] w2].
  - now apply chat_of_text_completion.
  - now apply chat_returns.
  - now apply chat_catches.
  - now apply chat_pending.
Qed.

End Handler_cases.

Section Handler_properties.
Context {E : Engine}.

Lemma row_of_length (now : Z) (data : value) (cells : list string) :
  row_of now data = Ok cells -> List.length cells = 7%nat.
Proof.
  unfold row_of. destruct (log_record now data); [| discriminate].
  apply record_cells_length.
Qed.

(** The log after a request: as it was, or with one more row. *)
Lemma chat_file (env : environment) (body : value) (w : world) :
  csv_file (snd (chat env body w)) = csv_file w
  \/ exists data cells,
      row_of (now env) data = Ok cells
      /\ disk_error env = None
      /\ csv_file (snd (chat env body w))
         = Some (with_record (csv_file w) cells).
Proof.
  destruct (chat_cases env body w)
    as [(e & _ & ->) | (msg & text & _ & _ & [(e & _ & ->) | (r & _ & H)])];
    try (now left).
  destruct (retrieve_and_poll_post env r (retrieved env)
              (called w [createAndRun ASSISTANT_ID msg])) as (_ & Hpost & _).
  unfold loop_post in Hpost.
  destruct (retrieve_and_poll env r (retrieved env)
              (called w [createAndRun ASSISTANT_ID msg]))
    as [[[] | x | e |] w2]; rewrite H; cbn [fst snd called csv_file] in *.
  - now left.
  - destruct Hpost as (data & card & cells & _ & _ & Hrow & Hdisk & Hfile).
    right. exists data, cells. auto.
  - destruct Hpost as [Hfile | (data & cells & _ & Hrow & Hdisk & Hfile)].
    + now left.
    + right. exists data, cells. auto.
  - now left.
Qed.

(** X3.  The calls of a request are paced: none at all, or the creation
    of one run, then one retrieval, then waits of 1000 ms each followed by
    one retrieval, then at most one listing of the messages.  No other
    call is made, and none submits tool outputs. *)
Theorem chat_calls_are_paced (env : environment) (body : value) (w : world) :
  exists cs,
    calls (snd (chat env body w)) = (calls w ++ cs)%list
    /\ paced cs
    /\ existsb is_submit cs = false.
Proof.
  destruct (chat_never_submits env body w) as (cs & Hcs & Hquiet).
  exists cs. split; [exact Hcs |]. split; [| exact Hquiet].
  destruct (chat_cases env body w)
    as [(e & _ & H) | (msg & text & _ & _ & [(e & _ & H) | (r & _ & H)])].
  - rewrite H in Hcs. cbn [snd] in Hcs. left.
    apply (app_inv_head (calls w)). now rewrite <- Hcs, app_nil_r.
  - rewrite H in Hcs. cbn [snd called calls] in Hcs. right. left. exists msg.
    now apply (app_inv_head (calls w)).
  - right. right.
    destruct (retrieve_and_poll_post env r (retrieved env)
                (called w [createAndRun ASSISTANT_ID msg])) as ((n & Hn) & _).
    destruct (retrieve_and_poll env r (retrieved env)
                (called w [createAndRun ASSISTANT_ID msg]))
      as [[[] | x | e |] w2]; rewrite H in Hcs;
      cbn [fst snd called calls] in Hcs, Hn; rewrite Hn in Hcs;
      rewrite <- !app_assoc in Hcs;
      apply app_inv_head in Hcs; subst cs.
    + exists msg, r, n, [messages_list (thread_id r)]. split; [| now right].
      cbn [app]. rewrite <- ?app_assoc. reflexivity.
    + exists msg, r, n, []. split; [| now left]. cbn [app]. now rewrite app_nil_r.
    + exists msg, r, n, []. split; [| now left]. cbn [app]. now rewrite app_nil_r.
    + exists msg, r, n, []. split; [| now left]. cbn [app]. now rewrite app_nil_r.
Qed.

(** X4.  A request stays without response only while the agent keeps the
    loop going: every retrieval was answered, with a status that is
    neither completed, nor a failure, nor a request for the card, and the
    next one is still awaited. *)
Theorem unanswered_only_while_polling
    (env : environment) (body : value) (w : world) :
  fst (chat env body w) = None ->
  exists sts,
    retrieved env = map Ok sts /\ forallb keeps_polling sts = true.
Proof.
  intros Hnone.
  destruct (chat_cases env body w)
    as [(e & _ & H) | (msg & text & _ & _ & [(e & _ & H) | (r & _ & H)])];
    try (rewrite H in Hnone; discriminate).
  destruct (retrieve_and_poll_post env r (retrieved env)
              (called w [createAndRun ASSISTANT_ID msg])) as (_ & _ & Hpend).
  destruct (retrieve_and_poll env r (retrieved env)
              (called w [createAndRun ASSISTANT_ID msg]))
    as [[[] | x | e |] w2]; try (rewrite H in Hnone; discriminate).
  now apply Hpend.
Qed.

(** X5.  While the disk takes the writes, a request leaves the log as it
    was or appends exactly one row of seven cells after the lines that
    were there: no line is removed or rewritten. *)
Theorem chat_appends_at_most_one_row
    (env : environment) (body : value) (w : world) :
  disk_error env = None ->
  csv_file (snd (chat env body w)) = csv_file w
  \/ exists cells,
      List.length cells = 7%nat
      /\ csv_file (snd (chat env body w))
         = Some (with_record (csv_file w) cells).
Proof.
  intros _. destruct (chat_file env body w)
    as [H | (data & cells & Hrow & _ & H)]; [now left |].
  right. exists cells. split; [| exact H].
  exact (row_of_length _ _ _ Hrow).
Qed.

(** X6.  While the disk takes the writes, the requests keep the log in
    order: a log that is absent, or is the header row followed by rows of
    seven cells, is so again after any request. *)
Theorem chat_keeps_the_log_in_order
    (env : environment) (body : value) (w : world) :
  disk_error env = None ->
  log_in_order (csv_file w) ->
  log_in_order (csv_file (snd (chat env body w))).
Proof.
  intros _ Horder. destruct (chat_file env body w)
    as [H | (data & cells & Hrow & _ & H)]; rewrite H; [exact Horder |].
  apply row_of_length in Hrow.
  unfold log_in_order, with_record in *.
  destruct (csv_file w) as [content |].
  - destruct Horder as (rows & -> & Hrows).
    exists (rows ++ [cells])%list. split.
    + now rewrite map_app.
    + apply Forall_app. split; [exact Hrows | now constructor].
  - exists [cells]. split; [reflexivity | now constructor].
Qed.

(** X7.  Every response of the chat route is one of three: the 500 with
    an error message; the 200 with the text reply, the log untouched; the
    200 with a card, built from a record whose row has just been appended
    to the log.  No card is sent for a signal that was not logged. *)
Theorem chat_responses (env : environment) (body : value) (w : world)
    (x : response) :
  fst (chat env body w) = Some x ->
  (exists m, x = Json 500 (error_body m))
  \/ (exists text,
        x = Json 200 (text_reply text)
        /\ csv_file (snd (chat env body w)) = csv_file w)
  \/ (exists data card cells,
        x = Json 200 card
        /\ buildWidgetPayload data = Ok card
        /\ row_of (now env) data = Ok cells
        /\ csv_file (snd (chat env body w))
           = Some (with_record (csv_file w) cells)).
Proof.
  intros Hx.
  destruct (chat_cases env body w)
    as [(e & _ & H) | (msg & text & _ & _ & [(e & _ & H) | (r & _ & H)])];
    try (rewrite H in Hx; injection Hx as <-; left; eauto).
  destruct (retrieve_and_poll_post env r (retrieved env)
              (called w [createAndRun ASSISTANT_ID msg])) as (_ & Hpost & _).
  unfold loop_post in Hpost.
  destruct (retrieve_and_poll env r (retrieved env)
              (called w [createAndRun ASSISTANT_ID msg]))
    as [[[] | y | e |] w2]; rewrite H in Hx |- *;
    cbn [fst snd called csv_file] in *; try discriminate;
    injection Hx as <-.
  - unfold text_response. destruct (listed env) as [data | e]; [| left; eauto].
    destruct (first_text data) as [t | e]; [| left; eauto].
    right. left. exists t. auto.
  - destruct Hpost as (data & card & cells & -> & Hcard & Hrow & _ & Hfile).
    right. right. exists data, card, cells. auto.
  - left. eauto.
Qed.

End Handler_properties.

Section Handler_paths.
Context {E : Engine}.

(** The handler up to the answers that follow the statuses on which the
    loop went round. *)
Lemma chat_try_waiting (env : environment) (body msg : value) (text : string)
    (r : run) (waiting : list runStatus) (answers : list (result runStatus))
    (w : world) :
  userMessage_of body = Ok msg ->
  ToString msg = Ok text ->
  created env = Ok r ->
  retrieved env = (map Ok waiting ++ answers)%list ->
  forallb keeps_polling waiting = true ->
  chat_try env body w
  = (_ <- retrieve_and_poll env r answers ;; text_completion env r)%M
      (called w (createAndRun ASSISTANT_ID msg
                 :: flat_map (fun _ => [runs_retrieve (thread_id r) (id r);
                                        setTimeout 1000]) waiting)).
Proof.
  intros Hmsg Htext Hrun Hans Hwait.
  unfold chat_try, bind, lift, perform.
  rewrite Hmsg. cbv beta iota. rewrite Htext. cbv beta iota.
  rewrite Hrun, Hans. cbv beta iota.
  rewrite (retrieve_and_poll_waiting env r _ _ _ Hwait).
  unfold called. cbn [csv_file calls]. now rewrite <- !app_assoc.
Qed.

(** X1.  When the status of the run becomes completed, the handler lists
    the messages of the thread once, after the loop, and leaves the log
    alone.  The response is the 200 with role assistant and, as content,
    the text of the first part of the first message; when the thread has
    no message, or its first message no part, or this part is not a text,
    or the listing is rejected, the response is the 500. *)
Theorem completed_run_answers_with_the_text
    (env : environment) (body msg : value) (text : string) (r : run)
    (waiting : list runStatus) (st : runStatus) (rest : list (result runStatus))
    (w : world) :
  userMessage_of body = Ok msg ->
  ToString msg = Ok text ->
  created env = Ok r ->
  retrieved env = (map Ok waiting ++ Ok st :: rest)%list ->
  forallb keeps_polling waiting = true ->
  status st = "completed" ->
  snd (chat env body w)
  = called w (calls_so_far msg r waiting ++ [messages_list (thread_id r)])
  /\ (forall reply parts more,
        listed env = Ok ((TextPart reply :: parts) :: more) ->
        fst (chat env body w) = Some (Json 200 (text_reply reply)))
  /\ (forall parts more,
        listed env = Ok []
        \/ listed env = Ok ([] :: more)
        \/ listed env = Ok ((OtherPart :: parts) :: more) ->
        exists m, fst (chat env body w) = Some (Json 500 (error_body m)))
  /\ (forall e,
        listed env = Throw e ->
        fst (chat env body w) = Some (Json 500 (error_body (message e)))).
Proof.
  intros Hmsg Htext Hrun Hans Hwait Hst.
  assert (H : chat env body w
              = (Some (text_response (listed env)),
                 called (called w (calls_so_far msg r waiting))
                   [messages_list (thread_id r)])).
  { apply chat_of_text_completion.
    rewrite (chat_try_reaches env r body msg text waiting st rest w
               Hmsg Htext Hrun Hans Hwait).
    unfold bind. rewrite poll_step, Hst. reflexivity. }
  rewrite H, called_called. cbn [fst snd]. split; [reflexivity |].
  split; [| split].
  - intros reply parts more ->. reflexivity.
  - intros parts more [-> | [-> | ->]]; cbn; eauto.
  - intros e ->. reflexivity.
Qed.

(** X2.  A rejected call of the agent API ends the request with the 500
    that carries the message of the rejection: after the creation of the
    run, nothing else is called; after a retrieval, at any round of the
    loop, no further wait or retrieval follows.  The log is left alone. *)
Theorem rejected_call_answers_500
    (env : environment) (body msg : value) (text : string) (e : exn)
    (w : world) :
  userMessage_of body = Ok msg ->
  ToString msg = Ok text ->
  (created env = Throw e ->
   chat env body w
   = (Some (Json 500 (error_body (message e))),
      called w [createAndRun ASSISTANT_ID msg]))
  /\ (forall r waiting rest,
        created env = Ok r ->
        retrieved env = (map Ok waiting ++ Throw e :: rest)%list ->
        forallb keeps_polling waiting = true ->
        chat env body w
        = (Some (Json 500 (error_body (message e))),
           called w (calls_so_far msg r waiting))).
Proof.
  intros Hmsg Htext. split.
  - intros Hrun. apply chat_catches.
    unfold chat_try, bind, lift, perform. now rewrite Hmsg, Htext, Hrun.
  - intros r waiting rest Hrun Hans Hwait. apply chat_catches.
    rewrite (chat_try_waiting env body msg text r waiting _ w
               Hmsg Htext Hrun Hans Hwait).
    unfold bind. rewrite retrieve_and_poll_unfold. cbv zeta.
    unfold calls_so_far, called. cbn [csv_file calls].
    now rewrite <- !app_assoc.
Qed.

(** X8.  The append and the card are not one step: when the arguments of
    the card request parse and their row is written, but the card cannot
    be built from them, the response is the 500 with the builder's error
    and the row stays in the log. *)
Theorem row_stays_when_the_card_fails
    (env : environment) (body msg : value) (text : string) (r : run)
    (waiting : list runStatus) (st : runStatus) (rest : list (result runStatus))
    (before after : list toolCall) (tc : toolCall) (data : value)
    (cells : list string) (e : exn) (w : world) :
  userMessage_of body = Ok msg ->
  ToString msg = Ok text ->
  created env = Ok r ->
  retrieved env = (map Ok waiting ++ Ok st :: rest)%list ->
  forallb keeps_polling waiting = true ->
  status st = "requires_action" ->
  tool_calls st = (before ++ tc :: after)%list ->
  (forall x, In x before -> function_name x <> "display_signal_card") ->
  function_name tc = "display_signal_card" ->
  JSON_parse (function_arguments tc) = Ok data ->
  disk_error env = None ->
  row_of (now env) data = Ok cells ->
  buildWidgetPayload data = Throw e ->
  chat env body w
  = (Some (Json 500 (error_body (message e))),
     {| csv_file := Some (with_record (csv_file w) cells);
        calls := (calls w ++ calls_so_far msg r waiting)%list |}).
Proof.
  intros Hmsg Htext Hrun Hans Hwait Hst Hsplit Hbefore Hname Hparse Hdisk
    Hrow Hcard.
  assert (Hfind : find is_display (tool_calls st) = Some tc).
  { rewrite Hsplit. apply find_at_first.
    - intros x Hx. unfold is_display. apply String.eqb_neq. now apply Hbefore.
    - unfold is_display. now apply String.eqb_eq. }
  apply chat_catches.
  rewrite (chat_try_reaches env r body msg text waiting st rest w
             Hmsg Htext Hrun Hans Hwait).
  unfold bind. rewrite (poll_display env r rest st tc _ Hst Hfind).
  unfold show_card, bind, lift, respond. rewrite Hparse, Hdisk.
  match goal with
  | |- context [logSignalToCsv ?t None data ?w1] =>
      destruct (logSignalToCsv_outcome t None data w1)
        as [(cells' & Hrow' & _ & ->) | (e' & _ & [Hbad | [Hbad _]])]
  end.
  - rewrite Hrow in Hrow'. injection Hrow' as <-. now rewrite Hcard.
  - rewrite Hrow in Hbad. discriminate.
  - discriminate.
Qed.

(** X10.  When no message can be taken from the request body, the
    response is the 500 and nothing else happens: the agent is not called
    and the log is not touched.  This is so for a body that is undefined
    or null, and for a messages list whose last element is null. *)
Theorem no_message_no_call (env : environment) (body : value) (w : world) :
  (forall e,
      userMessage_of body = Throw e ->
      chat env body w = (Some (Json 500 (error_body (message e))), w))
  /\ (body = VUndefined \/ body = VNull ->
      exists e, userMessage_of body = Throw e)
  /\ (forall items,
        get body "messages" = Ok (VArr items) ->
        items <> [] ->
        last items VUndefined = VNull ->
        exists e, userMessage_of body = Throw e).
Proof.
  split; [| split].
  - intros e He. apply chat_catches. unfold chat_try, bind, lift.
    now rewrite He.
  - intros [-> | ->]; eexists; reflexivity.
  - intros items Hm Hne Hlast. unfold userMessage_of. rewrite Hm.
    cbn [rbind ToBoolean get String.eqb Ascii.eqb Bool.eqb gt ToNumber].
    assert (Hpos : (0 <? Z.of_nat (List.length items)) = true).
    { apply Z.ltb_lt. destruct items; [contradiction | cbn [List.length]; lia]. }
    rewrite Hpos.
    pose proof (get_last_item items Hne) as Hitem.
    cbn [get String.eqb Ascii.eqb Bool.eqb rbind] in Hitem.
    cbn [minus_key ToNumber rbind] in Hitem |- *.
    rewrite Hitem, Hlast. eexists. reflexivity.
Qed.

End Handler_paths.

(** ** The logger and the builder on any data *)

Lemma get_field_total (data : value) (k : string) :
  data <> VUndefined -> data <> VNull -> get data k = Ok (field data k).
Proof.
  intros Hu Hn. destruct data; try contradiction;
    exact (get_some_all _ VUndefined "score" k eq_refl)
    || (unfold field; destruct (get _ k) eqn:H; [reflexivity |]; cbn in H;
        repeat match type of H with
               | (if ?c then _ else _) = _ => destruct c
               | match ?c with _ => _ end = _ => destruct c
               end; discriminate).
Qed.

Lemma get_ok_not_null (data v : value) (k : string) :
  get data k = Ok v -> data <> VUndefined /\ data <> VNull.
Proof. destruct data; try discriminate; split; discriminate. Qed.

Lemma stringify_printable (v : value) :
  (exists s, stringify_field v = Ok s) <-> printable v.
Proof.
  unfold printable. destruct v; cbn [stringify_field];
    try tauto; split; intros _; eexists; reflexivity.
Qed.

Lemma stringify_fields_printable (vs : list value) :
  (exists cs, stringify_fields vs = Ok cs) <-> Forall printable vs.
Proof.
  induction vs as [| v vs IH]; cbn [stringify_fields].
  - split; [constructor | eauto].
  - split.
    + intros [cs H].
      destruct (stringify_field v) as [c |] eqn:Hv; [| discriminate].
      cbn [rbind] in H.
      destruct (stringify_fields vs) as [cs' |] eqn:Hvs; [| discriminate].
      constructor; [apply stringify_printable; eauto | apply IH; eauto].
    + intros H. inversion H as [| ? ? Hv Hvs]; subst.
      apply stringify_printable in Hv. destruct Hv as [c ->].
      apply IH in Hvs. destruct Hvs as [cs ->]. cbn [rbind]. eauto.
Qed.

(** X11.  The logger writes all of a row or nothing.  Either it
    completes, having appended exactly one row of seven cells, or it throws
    and the file is as before; it throws exactly when the data is
    undefined or null, or one of the six values it writes, after the
    defaults, cannot be converted to a string. *)
Theorem logSignalToCsv_all_or_nothing (now : Z) (data : value) (w : world) :
  ((exists cells,
       row_of now data = Ok cells
       /\ List.length cells = 7%nat
       /\ logSignalToCsv now None data w
          = (Normal tt,
             {| csv_file := Some (with_record (csv_file w) cells);
                calls := calls w |}))
   \/ (exists e,
         row_of now data = Throw e
         /\ logSignalToCsv now None data w = (Thrown e, w)))
  /\ ((exists cells, row_of now data = Ok cells)
      <-> data <> VUndefined /\ data <> VNull
          /\ Forall printable
               [or_else (field data "title") (VStr "Unknown");
                or_else (field data "score") (VNum 0);
                or_else (field data "mission") (VStr "Adj");
                or_else (field data "archetype") (VStr "Signal");
                or_else (field data "hook") (VStr "");
                or_else (field data "sourceURL") (VStr "")]).
Proof.
  split.
  - destruct (logSignalToCsv_outcome now None data w)
      as [(cells & Hrow & _ & Hlog) | (e & Hlog & [Hrow | [Hbad _]])].
    + left. exists cells. split; [exact Hrow |]. split; [| exact Hlog].
      exact (row_of_length _ _ _ Hrow).
    + right. eauto.
    + discriminate.
  - unfold row_of. split.
    + intros [cells H].
      destruct (log_record now data) as [record |] eqn:Hrec; [| discriminate].
      pose proof (log_record_reads now data record Hrec) as Htitle.
      destruct (get_ok_not_null _ _ _ Htitle) as [Hu Hn].
      split; [exact Hu |]. split; [exact Hn |].
      rewrite (log_record_of_fields now data _ "title" Htitle) in Hrec.
      injection Hrec as <-. cbn [rbind] in H.
      unfold record_cells, header in H.
      cbn [get own String.eqb Ascii.eqb Bool.eqb rbind] in H.
      assert (Hall : Forall printable
                (VStr (toISOString now)
                 :: [or_else (field data "title") (VStr "Unknown");
                     or_else (field data "score") (VNum 0);
                     or_else (field data "mission") (VStr "Adj");
                     or_else (field data "archetype") (VStr "Signal");
                     or_else (field data "hook") (VStr "");
                     or_else (field data "sourceURL") (VStr "")]))
        by (apply stringify_fields_printable; eauto).
      now inversion Hall.
    + intros (Hu & Hn & Hall).
      rewrite (log_record_of_fields now data _ "title"
                 (get_field_total data "title" Hu Hn)).
      cbn [rbind]. unfold record_cells, header.
      cbn [get own String.eqb Ascii.eqb Bool.eqb rbind].
      apply stringify_fields_printable. constructor; [| exact Hall].
      eexists. reflexivity.
Qed.

Section Builder_errors.
Context {E : Engine}.

Lemma ToNumber_printable (v : value) :
  (exists x, ToNumber v = Ok x) <-> printable v.
Proof.
  unfold printable. destruct v; cbn [ToNumber];
    try (split; intros _; eexists; reflexivity);
    (split; intros [x H];
     [ destruct (ToString _) as [s |] eqn:Hs; [eauto | discriminate]
     | rewrite H; cbn [rbind]; eauto ]).
Qed.

Lemma scoreColor_printable (score : value) :
  (exists color, scoreColor score = Ok color) <-> printable score.
Proof.
  rewrite <- ToNumber_printable. unfold scoreColor, gt. split.
  - intros [color H]. destruct (ToNumber score) as [x |]; [eauto | discriminate].
  - intros [x ->]. cbn [rbind].
    destruct x as [z |]; [destruct (80 <? z) |]; cbn [rbind]; eauto.
Qed.

Lemma call_toUpperCase_string (a : value) :
  (exists v, call_toUpperCase (or_else a (VStr "SIGNAL")) = Ok v)
  <-> ToBoolean a = false \/ exists s, a = VStr s.
Proof.
  unfold or_else. destruct (ToBoolean a) eqn:Ha.
  - split.
    + intros [v H]. right. destruct a; try discriminate. eauto.
    + intros [Hf | [s ->]]; [discriminate |]. cbn. eauto.
  - split; [now left |]. intros _. cbn. eauto.
Qed.

(** X9.  The builder throws exactly when the data is undefined or null,
    or the score (0 when absent), the title or the hook cannot be
    converted to a string, or the archetype is there and is not a string.
    On any other data it gives a card. *)
Theorem buildWidgetPayload_throws_exactly_when (data : value) :
  (exists card, buildWidgetPayload data = Ok card)
  <-> data <> VUndefined /\ data <> VNull
      /\ printable (or_else (field data "score") (VNum 0))
      /\ (ToBoolean (field data "archetype") = false
          \/ exists s, field data "archetype" = VStr s)
      /\ printable (field data "title")
      /\ printable (field data "hook").
Proof.
  split.
  - intros [card H]. apply buildWidgetPayload_inv in H.
    destruct H as (score & a & archetype & l & title & hook & mission & sourceURL
                   & color & scoreText & titleText & hookText
                   & Hscore & Hcolor & Ha & Hup & _ & _ & Htitle & Hhook & _
                   & Htt & Hht & _).
    destruct (get_ok_not_null _ _ _ Htitle) as [Hu Hn].
    unfold score_of in Hscore. rewrite (get_field_total data "score" Hu Hn) in Hscore.
    cbn [rbind] in Hscore. injection Hscore as <-.
    apply field_of_get in Ha, Htitle, Hhook. subst.
    split; [exact Hu |]. split; [exact Hn |].
    split; [apply scoreColor_printable; eauto |].
    split; [apply call_toUpperCase_string; eauto |].
    split; [exists titleText | exists hookText]; assumption.
  - intros (Hu & Hn & Hscore & Ha & [tt Htt] & [ht Hht]).
    unfold buildWidgetPayload, score_of.
    rewrite !(get_field_total data _ Hu Hn). cbn [rbind].
    pose proof Hscore as [st Hst].
    apply scoreColor_printable in Hscore. destruct Hscore as [color ->].
    apply call_toUpperCase_string in Ha. destruct Ha as [up ->].
    cbn [rbind]. rewrite Hst, Htt, Hht. cbn [rbind]. eauto.
Qed.

(** X13.  The log record and the card depend on the named fields only:
    two data that agree on title, score, mission, archetype, hook and
    sourceURL give the same log record, and the same card when they also
    agree on lenses.  Any other entry of the arguments is ignored, and so
    are the lenses by the log. *)
Theorem only_the_named_fields_count (now : Z) (data data' : value) :
  data <> VUndefined -> data <> VNull ->
  data' <> VUndefined -> data' <> VNull ->
  (forall k,
      In k ["title"; "score"; "mission"; "archetype"; "hook"; "sourceURL"] ->
      field data k = field data' k) ->
  log_record now data = log_record now data'
  /\ (field data "lenses" = field data' "lenses" ->
      buildWidgetPayload data = buildWidgetPayload data').
Proof.
  intros Hu Hn Hu' Hn' Hsame.
  assert (Ht := Hsame "title"). assert (Hs := Hsame "score").
  assert (Hm := Hsame "mission"). assert (Ha := Hsame "archetype").
  assert (Hh := Hsame "hook"). assert (Hs' := Hsame "sourceURL").
  cbn [In] in Ht, Hs, Hm, Ha, Hh, Hs'.
  split.
  - unfold log_record.
    rewrite !(get_field_total data _ Hu Hn), !(get_field_total data' _ Hu' Hn').
    rewrite Ht, Hs, Hm, Ha, Hh, Hs' by tauto. reflexivity.
  - intros Hl. unfold buildWidgetPayload, score_of.
    rewrite !(get_field_total data _ Hu Hn), !(get_field_total data' _ Hu' Hn').
    rewrite Ht, Hs, Hm, Ha, Hh, Hs', Hl by tauto. reflexivity.
Qed.

End Builder_errors.

(** ** The start of the process *)

Lemma getenv_string (process_env : list (string * string)) (name : string) :
  getenv process_env name = VUndefined
  \/ exists s, getenv process_env name = VStr s.
Proof. unfold getenv. destruct (find _ process_env); eauto. Qed.

(** X12.  The process listens only with a key: when OPENAI_API_KEY is not
    set, or is set to the empty string, it exits with code 1 and never
    listens.  When it listens, the port is the value of PORT, or 3000 when
    PORT is not set or is empty. *)
Theorem start_needs_the_key (process_env : list (string * string)) :
  (OPENAI_API_KEY process_env = VUndefined
   \/ OPENAI_API_KEY process_env = VStr "" ->
   start process_env = Exited 1)
  /\ (forall port,
        start process_env = Listening port ->
        (exists key, OPENAI_API_KEY process_env = VStr key /\ key <> "")
        /\ ((port = VNum 3000
             /\ (getenv process_env "PORT" = VUndefined
                 \/ getenv process_env "PORT" = VStr ""))
            \/ exists p,
                p <> "" /\ getenv process_env "PORT" = VStr p /\ port = VStr p))
  /\ (start process_env = Exited 1 \/ exists port, start process_env = Listening port).
Proof.
  unfold start, PORT, OPENAI_API_KEY, or_else.
  split; [| split].
  - intros [-> | ->]; reflexivity.
  - intros port.
    destruct (getenv_string process_env "OPENAI_API_KEY") as [-> | [key ->]];
      cbn [ToBoolean negb]; [discriminate |].
    destruct (key =? "")%string eqn:Hkey; cbn [negb]; [discriminate |].
    apply String.eqb_neq in Hkey.
    intros H. split; [eauto |].
    destruct (getenv_string process_env "PORT") as [Hp | [p Hp]];
      rewrite Hp in H |- *; cbn [ToBoolean] in H.
    + injection H as <-. left. auto.
    + destruct (p =? "")%string eqn:Hne; cbn [negb] in H; injection H as <-.
      * apply String.eqb_eq in Hne. subst p. left. auto.
      * apply String.eqb_neq in Hne. right. eauto.
  - destruct (negb _); eauto.
Qed.

(** ** Statuses that the loop does not know *)

Section Other_statuses.
Context {E : Engine}.

Lemma keeps_polling_other_status (st : runStatus) :
  ~ In (status st)
      ["completed"; "failed"; "cancelled"; "expired"; "requires_action"] ->
  keeps_polling st = true.
Proof.
  intros Hnot. cbn [In] in Hnot. unfold keeps_polling, terminal_failure.
  destruct (String.eqb_spec (status st) "completed") as [e |];
    [exfalso; apply Hnot; rewrite e; auto 10 |].
  destruct (String.eqb_spec (status st) "failed") as [e |];
    [exfalso; apply Hnot; rewrite e; auto 10 |].
  destruct (String.eqb_spec (status st) "cancelled") as [e |];
    [exfalso; apply Hnot; rewrite e; auto 10 |].
  destruct (String.eqb_spec (status st) "expired") as [e |];
    [exfalso; apply Hnot; rewrite e; auto 10 |].
  destruct (String.eqb_spec (status st) "requires_action") as [e |];
    [exfalso; apply Hnot; rewrite e; auto 10 |].
  reflexivity.
Qed.

(** X14.  The loop ends on five statuses only.  On any other status
    (queued, in_progress, cancelling, incomplete, or one it never heard
    of) it waits and retrieves again: while the agent answers with such
    statuses the request gets no response, one retrieval and one wait of
    1000 ms being made for each of them. *)
Theorem other_statuses_keep_the_loop
    (env : environment) (body msg : value) (text : string) (r : run)
    (sts : list runStatus) (w : world) :
  userMessage_of body = Ok msg ->
  ToString msg = Ok text ->
  created env = Ok r ->
  retrieved env = map Ok sts ->
  (forall st, In st sts ->
     ~ In (status st)
         ["completed"; "failed"; "cancelled"; "expired"; "requires_action"]) ->
  chat env body w = (None, called w (calls_so_far msg r sts)).
Proof.
  intros Hmsg Htext Hrun Hans Hother.
  assert (Hall : forallb keeps_polling sts = true).
  { apply forallb_forall. intros st Hin.
    apply keeps_polling_other_status. now apply Hother. }
  apply chat_pending.
  rewrite <- (app_nil_r (map Ok sts)) in Hans.
  rewrite (chat_try_waiting env body msg text r sts [] w
             Hmsg Htext Hrun Hans Hall).
  unfold bind. rewrite retrieve_and_poll_unfold. cbv zeta.
  unfold calls_so_far, called. cbn [csv_file calls].
  now rewrite <- !app_assoc.
Qed.

End Other_statuses.

(* ================================================================= *)
(** * The further properties at work, on the ASCII engine *)

Lemma completed_run_answers_with_the_text_witness :
  fst (chat (Sample.agent [Sample.in_progress; Sample.ended "completed"])
         Sample.request Sample.fresh)
  = Some (Json 200 (text_reply "Here are the top signals.")).
Proof.
  destruct (completed_run_answers_with_the_text
              (Sample.agent [Sample.in_progress; Sample.ended "completed"])
              Sample.request (VStr "find signals") "find signals"
              Sample.the_run [Sample.in_progress] (Sample.ended "completed") []
              Sample.fresh eq_refl eq_refl eq_refl eq_refl eq_refl eq_refl)
    as (_ & H & _).
  exact (H "Here are the top signals." [] [] eq_refl).
Defined.

Lemma rejected_call_answers_500_witness :
  chat Sample_more.agent_refusing Sample.request Sample.fresh
  = (Some (Json 500 (error_body "401 Incorrect API key provided")),
     called Sample.fresh [createAndRun ASSISTANT_ID (VStr "find signals")])
  /\ chat Sample_more.agent_dropping Sample.request Sample.fresh
     = (Some (Json 500 (error_body "Connection error.")),
        called Sample.fresh
          (calls_so_far (VStr "find signals") Sample.the_run [Sample.in_progress])).
Proof.
  split.
  - destruct (rejected_call_answers_500 Sample_more.agent_refusing
                Sample.request (VStr "find signals") "find signals"
                (Error "401 Incorrect API key provided") Sample.fresh
                eq_refl eq_refl) as [H _].
    exact (H eq_refl).
  - destruct (rejected_call_answers_500 Sample_more.agent_dropping
                Sample.request (VStr "find signals") "find signals"
                (Error "Connection error.") Sample.fresh
                eq_refl eq_refl) as [_ H].
    exact (H Sample.the_run [Sample.in_progress] [] eq_refl eq_refl eq_refl).
Defined.

Lemma unanswered_only_while_polling_witness :
  fst (chat (Sample.agent [Sample.in_progress; Sample.action [Sample.lookup]])
         Sample.request Sample.fresh) = None
  /\ exists sts,
      retrieved (Sample.agent [Sample.in_progress; Sample.action [Sample.lookup]])
      = map Ok sts
      /\ forallb keeps_polling sts = true.
Proof.
  split; [reflexivity |].
  exact (unanswered_only_while_polling
           (Sample.agent [Sample.in_progress; Sample.action [Sample.lookup]])
           Sample.request Sample.fresh eq_refl).
Defined.

Lemma chat_appends_at_most_one_row_witness :
  csv_file (snd (chat (Sample.agent [Sample.action [Sample.display]])
                   Sample.request Sample.fresh)) = csv_file Sample.fresh
  \/ exists cells,
      List.length cells = 7%nat
      /\ csv_file (snd (chat (Sample.agent [Sample.action [Sample.display]])
                         Sample.request Sample.fresh))
         = Some (with_record (csv_file Sample.fresh) cells).
Proof.
  exact (chat_appends_at_most_one_row
           (Sample.agent [Sample.action [Sample.display]])
           Sample.request Sample.fresh eq_refl).
Defined.

Lemma chat_keeps_the_log_in_order_witness :
  log_in_order
    (csv_file (snd (chat (Sample.agent [Sample.action [Sample.display]])
                      Sample.request Sample.fresh))).
Proof.
  exact (chat_keeps_the_log_in_order
           (Sample.agent [Sample.action [Sample.display]])
           Sample.request Sample.fresh eq_refl I).
Defined.

Lemma chat_responses_witness :
  exists data cells,
    buildWidgetPayload data = Ok Sample.card
    /\ row_of 1700000000000 data = Ok cells
    /\ csv_file (snd (chat (Sample.agent [Sample.action [Sample.display]])
                       Sample.request Sample.fresh))
       = Some (with_record None cells).
Proof.
  assert (Hx : fst (chat (Sample.agent [Sample.action [Sample.display]])
                      Sample.request Sample.fresh)
               = Some (Json 200 Sample.card)) by reflexivity.
  destruct (chat_responses (Sample.agent [Sample.action [Sample.display]])
              Sample.request Sample.fresh (Json 200 Sample.card) Hx)
    as [(m & Hm) | [(text & Ht & _) | (data & card & cells & Hc & Hb & Hr & Hf)]].
  - discriminate Hm.
  - discriminate Ht.
  - injection Hc as <-. exists data, cells. auto.
Defined.

Lemma row_stays_when_the_card_fails_witness :
  JSON_parse Sample_more.arguments_archetype_5 = Ok Sample_more.signal_archetype_5
  /\ Sample_more.row_archetype_5
     = ["2023-11-14T22:13:20.000Z"; "Unknown"; "0"; "Adj"; "5"; ""; ""]
  /\ chat (Sample.agent [Sample.action [Sample_more.display_archetype_5]])
       Sample.request Sample.fresh
     = (Some (Json 500 (error_body (message Sample_more.error_archetype_5))),
        {| csv_file := Some (with_record None Sample_more.row_archetype_5);
           calls := calls_so_far (VStr "find signals") Sample.the_run [] |}).
Proof.
  split; [reflexivity |]. split; [reflexivity |].
  assert (Hparse : JSON_parse (function_arguments Sample_more.display_archetype_5)
                   = Ok Sample_more.signal_archetype_5) by reflexivity.
  assert (Hrow : row_of (now (Sample.agent
                                [Sample.action [Sample_more.display_archetype_5]]))
                   Sample_more.signal_archetype_5
                 = Ok Sample_more.row_archetype_5) by reflexivity.
  assert (Hcard : buildWidgetPayload Sample_more.signal_archetype_5
                  = Throw Sample_more.error_archetype_5) by reflexivity.
  exact (row_stays_when_the_card_fails
           (Sample.agent [Sample.action [Sample_more.display_archetype_5]])
           Sample.request (VStr "find signals") "find signals" Sample.the_run
           [] (Sample.action [Sample_more.display_archetype_5]) [] [] []
           Sample_more.display_archetype_5 Sample_more.signal_archetype_5
           Sample_more.row_archetype_5 Sample_more.error_archetype_5
           Sample.fresh eq_refl eq_refl eq_refl eq_refl eq_refl eq_refl eq_refl
           (fun x (H : In x []) => match H with end) eq_refl Hparse eq_refl
           Hrow Hcard).
Defined.

Lemma only_the_named_fields_count_witness :
  log_record 0 Sample.signal = log_record 0 Sample_more.signal_reordered.
Proof.
  refine (proj1 (only_the_named_fields_count 0 Sample.signal
                   Sample_more.signal_reordered _ _ _ _ _));
    try discriminate.
  intros k Hk. cbn [In] in Hk.
  destruct Hk as [<- | [<- | [<- | [<- | [<- | [<- | []]]]]]]; reflexivity.
Defined.

Lemma other_statuses_keep_the_loop_witness :
  chat (Sample.agent [Sample.ended "queued"; Sample.ended "incomplete"])
    Sample.request Sample.fresh
  = (None,
     called Sample.fresh
       (calls_so_far (VStr "find signals") Sample.the_run
          [Sample.ended "queued"; Sample.ended "incomplete"])).
Proof.
  refine (other_statuses_keep_the_loop
            (Sample.agent [Sample.ended "queued"; Sample.ended "incomplete"])
            Sample.request (VStr "find signals") "find signals" Sample.the_run
            [Sample.ended "queued"; Sample.ended "incomplete"] Sample.fresh
            eq_refl eq_refl eq_refl eq_refl _).
  intros st [<- | [<- | []]] Hin; cbn [In Sample.ended status] in Hin;
    repeat (destruct Hin as [Hin | Hin]; [discriminate Hin |]); exact Hin.
Defined.
